(** * Webhook ingestion of the payment service

    A shallow embedding of routes/webhooks.js - the routes
    [POST /api/webhooks/stripe] and [POST /api/webhooks/paypal] with their
    seventeen event handlers - and of [StripeService.verifyWebhookSignature]
    from services/stripeService.js.

    JavaScript values are a small JSON-like datatype.  Code is an effect
    tree whose nodes are the effects the service performs (winston logging,
    the [fetch] to the authentication service, the Stripe SDK's
    [constructEvent], a mongoose write) and whose leaves are a returned value
    or a thrown exception.  An interpreter runs a tree against a world made
    of the entity store and the chronological trace of effects, with the
    answers of the network, the SDK and the database supplied by an
    environment; a second interpreter runs two trees interleaved. *)

From Stdlib Require Import String List ZArith Bool Lia Permutation DecimalString.
Import ListNotations.
Local Open Scope string_scope.
Local Open Scope Z_scope.
Set Warnings "-register-all".

(** ** JavaScript values *)

(** The values a parsed JSON body can hold, plus [undefined].  A number is
    given by its decimal rendering, the text [String(n)] yields for it
    (["2000"], ["1.5"], ["1e+21"]; ["0"] for both zeros, ["NaN"]): the code
    modelled here never computes with a number, it only prints it and tests
    it for truth.  The objects are those [JSON.parse] builds: every property is an
    own data property holding a value of this type, the prototype is
    [Object.prototype] or [Array.prototype], and nothing is callable. *)
Inductive value : Type :=
| VUndefined
| VNull
| VBool (b : bool)
| VNum (repr : string)
| VStr (s : string)
| VArr (items : list value)
| VObj (fields : list (string * value)).

(** A thrown JavaScript [Error] object: its [name] and its [message]. *)
Record error : Type := mkError { name : string; message : string }.

Definition TypeError (msg : string) : error := mkError "TypeError" msg.
Definition Error (msg : string) : error := mkError "Error" msg.

(** [ToBoolean]: the test performed by [if (v)], [!v] and [a && b]. *)
Definition truthy (v : value) : bool :=
  match v with
  | VUndefined | VNull => false
  | VBool b => b
  | VNum repr => negb (repr =? "0")%string && negb (repr =? "NaN")%string
  | VStr s => negb (s =? "")%string
  | VArr _ | VObj _ => true
  end.

(** [a && b] evaluates to [a] when [a] is falsy, and to [b] otherwise. *)
Definition js_and (a b : value) : value := if truthy a then b else a.

Fixpoint lookup (k : string) (fields : list (string * value)) : option value :=
  match fields with
  | [] => None
  | (k', v) :: rest => if (k =? k')%string then Some v else lookup k rest
  end.

(** Property read [v.k].  Reading a property of [undefined] or [null] throws
    a [TypeError]; on an object it is the own property or [undefined]; on any
    other value it is [undefined].  The keys read by the webhook module
    ([id], [metadata], [userId], [planId], [type], [data], [object],
    [event_type], [resource_type], [resource]) are not defined on any built-in
    prototype, so own-property lookup is the whole story. *)
Definition get (v : value) (k : string) : error + value :=
  match v with
  | VUndefined =>
      inl (TypeError ("Cannot read properties of undefined (reading '" ++ k ++ "')"))
  | VNull =>
      inl (TypeError ("Cannot read properties of null (reading '" ++ k ++ "')"))
  | VObj fields =>
      inr (match lookup k fields with Some x => x | None => VUndefined end)
  | _ => inr VUndefined
  end.

(** The decimal digits of an integer, as [String(n)] prints an HTTP status. *)
Definition string_of_Z (n : Z) : string := NilZero.string_of_int (Z.to_int n).

(** What [ToString] throws when neither [toString] nor [valueOf] yields a
    primitive. *)
Definition unprintable : error :=
  TypeError "Cannot convert object to primitive value".

(** [ToString(v)], the conversion applied to the holes of a template
    literal.  On an object it asks the [toString] method first: a parsed
    object with a property of that name of its own has shadowed
    [Object.prototype.toString] with something that cannot be called, and
    [valueOf], its own or inherited, yields no primitive either, so the
    conversion throws; any other object is ["[object Object]"], whether or not
    it has a [valueOf] of its own.  On an array it is [join(",")], which
    converts the elements from left to right, [undefined] and [null] to the
    empty string. *)
Fixpoint toStr (v : value) : error + string :=
  match v with
  | VUndefined => inr "undefined"
  | VNull => inr "null"
  | VBool true => inr "true"
  | VBool false => inr "false"
  | VNum repr => inr repr
  | VStr s => inr s
  | VArr items =>
      (fix join (l : list value) : error + string :=
         match l with
         | [] => inr ""
         | x :: rest =>
             match match x with
                   | VUndefined | VNull => inr ""
                   | _ => toStr x
                   end with
             | inl e => inl e
             | inr s =>
                 match rest with
                 | [] => inr s
                 | _ => match join rest with
                        | inl e => inl e
                        | inr t => inr (s ++ "," ++ t)
                        end
                 end
             end
         end) items
  | VObj fields =>
      match lookup "toString" fields with
      | Some _ => inl unprintable
      | None => inr "[object Object]"
      end
  end.

(** An environment variable in a template literal: its text, or
    ["undefined"] when it is not set. *)
Definition setting (v : option string) : string :=
  match v with
  | Some s => s
  | None => "undefined"
  end.

(** ** HTTP *)

(** An inbound request as Express presents it: header names are lower-cased
    by Node, [body] is [req.body], whatever the body parsers made of it. *)
Record request : Type := mkRequest {
  headers : list (string * string);
  body : value
}.

Fixpoint header (k : string) (hs : list (string * string)) : option string :=
  match hs with
  | [] => None
  | (k', v) :: rest => if (k =? k')%string then Some v else header k rest
  end.

(** What [res.status(c).json(b)] sends; [res.json(b)] sends status 200. *)
Record response : Type := mkResponse { status : Z; payload : value }.

Definition res_status_json (c : Z) (b : value) : response := mkResponse c b.
Definition res_json (b : value) : response := mkResponse 200 b.

(** An outbound call made with [fetch(url, {method, headers, body})].  [json]
    is the object handed to [JSON.stringify] to build the body. *)
Record http_request : Type := mkHttp {
  method : string;
  url : string;
  content_type : string;
  json : value
}.

(** The [Response] that [fetch] resolves to: [response.status],
    [response.statusText], and the outcome of [await response.text()]. *)
Record http_response : Type := mkHttpResponse {
  http_status : Z;
  statusText : string;
  text : error + string
}.

(** [response.ok]: the status is in the range 200-299. *)
Definition ok (r : http_response) : bool :=
  (200 <=? http_status r) && (http_status r <=? 299).

(** A delivery to the authentication service failed: the call threw, or the
    answer is not a 2xx. *)
Definition failed (r : error + http_response) : bool :=
  match r with
  | inl _ => true
  | inr resp => negb (ok resp)
  end.

(** ** The world: entity store and trace of effects *)

(** The three entity collections of the service (README, Data Models); the
    documents are JavaScript objects. *)
Record store : Type := mkStore {
  payments : list value;
  subscriptions : list value;
  customers : list value
}.

(** The winston levels in use: [logger.info], [logger.warn], [logger.error]. *)
Inductive level : Type := Info | Warn | Err.

(** One argument of a winston call.  [AJson v] stands for the text
    [JSON.stringify(v, null, 2)]. *)
Inductive log_arg : Type :=
| AStr (s : string)
| AVal (v : value)
| AJson (v : value)
| AErr (e : error).

(** What can be observed of a run, one entry per effect: a log call, a call
    to the authentication service with its outcome, a call to the Stripe SDK
    with its outcome, a write with its outcome. *)
Inductive event : Type :=
| ELog (l : level) (args : list log_arg)
| EFetch (rq : http_request) (r : error + http_response)
| EConstruct (payload : value) (signature : string) (r : error + value)
| EWrite (r : error + unit).

(** The state a request runs against: the store, and the trace of all
    effects so far, oldest first. *)
Record world : Type := mkWorld {
  entities : store;
  trace : list event
}.

(** The event [e] appended to the trace of [w]. *)
Definition record (e : event) (w : world) : world :=
  mkWorld (entities w) (trace w ++ [e]).

(** The events [es] appended to the trace of [w], the store left alone. *)
Definition extend (w : world) (es : list event) : world :=
  mkWorld (entities w) (trace w ++ es).

(** What the code does not control: the network and the authentication
    service, the Stripe SDK with its webhook secret, and the availability of
    the database.  Each answer may depend on everything that happened
    before. *)
Record environment : Type := mkEnv {
  net : list event -> http_request -> error + http_response;
  constructEvent : list event -> value -> string -> error + value;
  db : list event -> error + unit
}.

(** ** Effect trees *)

(** A piece of code is a tree: it returns, throws, or performs an effect and
    goes on with the answer.  [Log] is a winston call, [Fetch] an awaited
    [fetch], [Construct] the Stripe SDK's [constructEvent], and [Write] a
    mongoose write such as the [await plan.save()] of the plans route, the
    only kind of statement by which this service changes its store. *)
Inductive prog (A : Type) : Type :=
| Ret (a : A)
| Throw (e : error)
| Log (l : level) (args : list log_arg) (k : prog A)
| Fetch (rq : http_request) (k : error + http_response -> prog A)
| Construct (payload : value) (signature : string) (k : error + value -> prog A)
| Write (f : store -> store) (k : error + unit -> prog A).

Arguments Ret {A} a.
Arguments Throw {A} e.
Arguments Log {A} l args k.
Arguments Fetch {A} rq k.
Arguments Construct {A} payload signature k.
Arguments Write {A} f k.

(** [p] followed by [f]: sequencing of statements. *)
Fixpoint bind {A B : Type} (p : prog A) (f : A -> prog B) : prog B :=
  match p with
  | Ret a => f a
  | Throw e => Throw e
  | Log l args k => Log l args (bind k f)
  | Fetch rq k => Fetch rq (fun r => bind (k r) f)
  | Construct b s k => Construct b s (fun r => bind (k r) f)
  | Write g k => Write g (fun r => bind (k r) f)
  end.

(** [try { p } catch (e) { h e }] *)
Fixpoint try_catch {A : Type} (p : prog A) (h : error -> prog A) : prog A :=
  match p with
  | Ret a => Ret a
  | Throw e => h e
  | Log l args k => Log l args (try_catch k h)
  | Fetch rq k => Fetch rq (fun r => try_catch (k r) h)
  | Construct b s k => Construct b s (fun r => try_catch (k r) h)
  | Write g k => Write g (fun r => try_catch (k r) h)
  end.

Declare Scope prog_scope.
Delimit Scope prog_scope with prog.
Notation "x <- p ;; q" := (bind p (fun x => q))
  (at level 61, p at next level, right associativity) : prog_scope.
Notation "p ;; q" := (bind p (fun _ => q))
  (at level 61, right associativity) : prog_scope.
Local Open Scope prog_scope.

(** A throwing expression used as a statement or an operand. *)
Definition lift {A : Type} (r : error + A) : prog A :=
  match r with
  | inl e => Throw e
  | inr a => Ret a
  end.

(** [logger.info(...)], [logger.warn(...)], [logger.error(...)] *)
Definition log (l : level) (args : list log_arg) : prog unit :=
  Log l args (Ret tt).

(** [await fetch(url, options)] *)
Definition fetch (rq : http_request) : prog http_response := Fetch rq lift.

(** [stripe.webhooks.constructEvent(payload, signature, secret)] *)
Definition stripe_constructEvent (b : value) (s : string) : prog value :=
  Construct b s lift.

(** Runs a tree to its end: the returned value or the uncaught exception, and
    the world it leaves. *)
Fixpoint run {A : Type} (env : environment) (p : prog A) (w : world)
  : (error + A) * world :=
  match p with
  | Ret a => (inr a, w)
  | Throw e => (inl e, w)
  | Log l args k => run env k (record (ELog l args) w)
  | Fetch rq k =>
      let r := net env (trace w) rq in
      run env (k r) (record (EFetch rq r) w)
  | Construct b s k =>
      let r := constructEvent env (trace w) b s in
      run env (k r) (record (EConstruct b s r) w)
  | Write f k =>
      let r := db env (trace w) in
      let st := match r with inl _ => entities w | inr _ => f (entities w) end in
      run env (k r) (mkWorld st (trace w ++ [EWrite r]))
  end.

(** One effect of a tree that has not finished: the rest of the tree and
    the world after the effect. *)
Definition step {A : Type} (env : environment) (p : prog A) (w : world)
  : option (prog A * world) :=
  match p with
  | Ret _ | Throw _ => None
  | Log l args k => Some (k, record (ELog l args) w)
  | Fetch rq k =>
      let r := net env (trace w) rq in
      Some (k r, record (EFetch rq r) w)
  | Construct b s k =>
      let r := constructEvent env (trace w) b s in
      Some (k r, record (EConstruct b s r) w)
  | Write f k =>
      let r := db env (trace w) in
      let st := match r with inl _ => entities w | inr _ => f (entities w) end in
      Some (k r, mkWorld st (trace w ++ [EWrite r]))
  end.

(** What a tree with nothing left to do has ended in. *)
Definition finished {A : Type} (p : prog A) : option (error + A) :=
  match p with
  | Ret a => Some (inr a)
  | Throw e => Some (inl e)
  | _ => None
  end.

(** Two deliveries in flight.  Node runs the two requests on one thread and
    switches between them where they await; an interleaving of the two trees
    effect by effect covers every such switch.  [sched] says whose effect
    comes next ([true]: the first delivery); when it runs out, or when one
    delivery has finished, the rest runs in order. *)
Fixpoint interleave {A B : Type} (env : environment) (p : prog A) {struct p}
  : prog B -> list bool -> world -> (error + A) * (error + B) * world :=
  fix inner (q : prog B) {struct q}
    : list bool -> world -> (error + A) * (error + B) * world :=
    fun sched w =>
      let sequential :=
        let '(ra, w1) := run env p w in
        let '(rb, w2) := run env q w1 in
        (ra, rb, w2) in
      match finished p, finished q with
      | None, None =>
          match sched with
          | false :: rest =>
              match q with
              | Log l args k => inner k rest (record (ELog l args) w)
              | Fetch rq k =>
                  let r := net env (trace w) rq in
                  inner (k r) rest (record (EFetch rq r) w)
              | Construct b s k =>
                  let r := constructEvent env (trace w) b s in
                  inner (k r) rest (record (EConstruct b s r) w)
              | Write f k =>
                  let r := db env (trace w) in
                  let st := match r with
                            | inl _ => entities w
                            | inr _ => f (entities w)
                            end in
                  inner (k r) rest (mkWorld st (trace w ++ [EWrite r]))
              | _ => sequential
              end
          | _ =>
              match p with
              | Log l args k => interleave env k q (tl sched) (record (ELog l args) w)
              | Fetch rq k =>
                  let r := net env (trace w) rq in
                  interleave env (k r) q (tl sched) (record (EFetch rq r) w)
              | Construct b s k =>
                  let r := constructEvent env (trace w) b s in
                  interleave env (k r) q (tl sched) (record (EConstruct b s r) w)
              | Write f k =>
                  let r := db env (trace w) in
                  let st := match r with
                            | inl _ => entities w
                            | inr _ => f (entities w)
                            end in
                  interleave env (k r) q (tl sched) (mkWorld st (trace w ++ [EWrite r]))
              | _ => sequential
              end
          end
      | _, _ => sequential
      end.

(** ** services/stripeService.js *)

(** [StripeService.verifyWebhookSignature(payload, signature)]: the SDK's
    [constructEvent] under a try; a failure is logged and rethrown as a new
    [Error]. *)
Definition verifyWebhookSignature (payload : value) (signature : string)
  : prog value :=
  try_catch
    (stripe_constructEvent payload signature)
    (fun error =>
       log Err [AStr "Webhook signature verification failed:"; AErr error] ;;
       Throw (Error ("Webhook signature verification failed: " ++ message error))).

(** ** routes/webhooks.js *)

Section Webhooks.

(** [process.env.AUTH_SERVICE_URL]: a string, or [undefined] when unset. *)
Variable AUTH_SERVICE_URL : option string.

(** [session.metadata && session.metadata.k] *)
Definition metadata_field (o : value) (k : string) : prog value :=
  m <- lift (get o "metadata") ;;
  if truthy m then lift (get m k) else Ret m.

(** The block that updates the user's current plan in the authentication
    service; checkout-session-completed, subscription-created and
    subscription-updated each carry a copy of it.  The dynamic import of
    [node-fetch] that opens the block is taken to resolve.  The URL is a
    template literal, so [userId] is converted before anything is sent;
    [JSON.stringify({ planId })] converts nothing. *)
Definition patch_user_plan (userId planId : value) : prog unit :=
  try_catch
    (let authServiceUrl := AUTH_SERVICE_URL in
     user <- lift (toStr userId) ;;
     response <- fetch
       (mkHttp "PATCH"
          (setting authServiceUrl ++ "/auth/users/" ++ user ++ "/plan")
          "application/json"
          (VObj [("planId", planId)])) ;;
     log Info [AStr "PATCH response status:";
               AVal (VNum (string_of_Z (http_status response)))] ;;
     responseBody <- lift (text response) ;;
     log Info [AStr "PATCH response body:"; AVal (VStr responseBody)] ;;
     if negb (ok response)
     then log Err [AStr ("Failed to update user plan in auth service: "
                         ++ string_of_Z (http_status response) ++ " "
                         ++ statusText response)]
     else (user <- lift (toStr userId) ;;
           plan <- lift (toStr planId) ;;
           log Info [AStr ("User " ++ user ++ " plan updated to "
                           ++ plan ++ " in auth service.")]))
    (fun err => log Err [AStr "PATCH request failed:"; AErr err]).

(** *** Stripe webhook handlers *)

Definition handlePaymentIntentSucceeded (paymentIntent : value) : prog unit :=
  try_catch
    (id <- lift (get paymentIntent "id") ;;
     shown <- lift (toStr id) ;;
     log Info [AStr ("Payment intent succeeded: " ++ shown)])
    (fun error => log Err [AStr "Error handling payment intent succeeded:"; AErr error]).

Definition handlePaymentIntentFailed (paymentIntent : value) : prog unit :=
  try_catch
    (id <- lift (get paymentIntent "id") ;;
     shown <- lift (toStr id) ;;
     log Info [AStr ("Payment intent failed: " ++ shown)])
    (fun error => log Err [AStr "Error handling payment intent failed:"; AErr error]).

Definition handleInvoicePaymentSucceeded (invoice : value) : prog unit :=
  try_catch
    (id <- lift (get invoice "id") ;;
     shown <- lift (toStr id) ;;
     log Info [AStr ("Invoice payment succeeded: " ++ shown)])
    (fun error => log Err [AStr "Error handling invoice payment succeeded:"; AErr error]).

Definition handleInvoicePaymentFailed (invoice : value) : prog unit :=
  try_catch
    (id <- lift (get invoice "id") ;;
     shown <- lift (toStr id) ;;
     log Info [AStr ("Invoice payment failed: " ++ shown)])
    (fun error => log Err [AStr "Error handling invoice payment failed:"; AErr error]).

Definition handleCheckoutSessionCompleted (session : value) : prog unit :=
  try_catch
    (id <- lift (get session "id") ;;
     shown <- lift (toStr id) ;;
     log Info [AStr ("Checkout session completed: " ++ shown)] ;;
     userId <- metadata_field session "userId" ;;
     planId <- metadata_field session "planId" ;;
     user <- lift (toStr userId) ;;
     plan <- lift (toStr planId) ;;
     log Info [AStr ("Session metadata - userId: " ++ user
                     ++ ", planId: " ++ plan)] ;;
     if truthy (js_and userId planId)
     then patch_user_plan userId planId
     else log Warn [AStr "userId or planId missing in session metadata."])
    (fun error => log Err [AStr "Error handling checkout session completed:"; AErr error]).

Definition handleSubscriptionCreated (subscription : value) : prog unit :=
  try_catch
    (log Info [AStr "Stripe webhook event:"; AJson subscription] ;;
     userId <- metadata_field subscription "userId" ;;
     planId <- metadata_field subscription "planId" ;;
     log Info [AStr "userId:"; AVal userId; AStr "planId:"; AVal planId] ;;
     if truthy (js_and userId planId)
     then patch_user_plan userId planId
     else log Warn [AStr "userId or planId missing in subscription metadata."])
    (fun error => log Err [AStr "Error handling subscription created:"; AErr error]).

Definition handleSubscriptionUpdated (subscription : value) : prog unit :=
  try_catch
    (log Info [AStr "Stripe webhook event:"; AJson subscription] ;;
     userId <- metadata_field subscription "userId" ;;
     planId <- metadata_field subscription "planId" ;;
     log Info [AStr "userId:"; AVal userId; AStr "planId:"; AVal planId] ;;
     if truthy (js_and userId planId)
     then patch_user_plan userId planId
     else log Warn [AStr "userId or planId missing in subscription metadata."])
    (fun error => log Err [AStr "Error handling subscription updated:"; AErr error]).

Definition handleSubscriptionDeleted (subscription : value) : prog unit :=
  try_catch
    (id <- lift (get subscription "id") ;;
     shown <- lift (toStr id) ;;
     log Info [AStr ("Subscription deleted: " ++ shown)])
    (fun error => log Err [AStr "Error handling subscription deleted:"; AErr error]).

Definition handleSubscriptionTrialWillEnd (subscription : value) : prog unit :=
  try_catch
    (id <- lift (get subscription "id") ;;
     shown <- lift (toStr id) ;;
     log Info [AStr ("Subscription trial will end: " ++ shown)])
    (fun error => log Err [AStr "Error handling subscription trial will end:"; AErr error]).

(** *** PayPal webhook handlers *)

Definition handlePayPalPaymentCompleted (resource : value) : prog unit :=
  try_catch
    (id <- lift (get resource "id") ;;
     shown <- lift (toStr id) ;;
     log Info [AStr ("PayPal payment completed: " ++ shown)])
    (fun error => log Err [AStr "Error handling PayPal payment completed:"; AErr error]).

Definition handlePayPalPaymentDenied (resource : value) : prog unit :=
  try_catch
    (id <- lift (get resource "id") ;;
     shown <- lift (toStr id) ;;
     log Info [AStr ("PayPal payment denied: " ++ shown)])
    (fun error => log Err [AStr "Error handling PayPal payment denied:"; AErr error]).

Definition handlePayPalSubscriptionCreated (resource : value) : prog unit :=
  try_catch
    (id <- lift (get resource "id") ;;
     shown <- lift (toStr id) ;;
     log Info [AStr ("PayPal subscription created: " ++ shown)])
    (fun error => log Err [AStr "Error handling PayPal subscription created:"; AErr error]).

Definition handlePayPalSubscriptionActivated (resource : value) : prog unit :=
  try_catch
    (id <- lift (get resource "id") ;;
     shown <- lift (toStr id) ;;
     log Info [AStr ("PayPal subscription activated: " ++ shown)])
    (fun error => log Err [AStr "Error handling PayPal subscription activated:"; AErr error]).

Definition handlePayPalSubscriptionCancelled (resource : value) : prog unit :=
  try_catch
    (id <- lift (get resource "id") ;;
     shown <- lift (toStr id) ;;
     log Info [AStr ("PayPal subscription cancelled: " ++ shown)])
    (fun error => log Err [AStr "Error handling PayPal subscription cancelled:"; AErr error]).

Definition handlePayPalSubscriptionExpired (resource : value) : prog unit :=
  try_catch
    (id <- lift (get resource "id") ;;
     shown <- lift (toStr id) ;;
     log Info [AStr ("PayPal subscription expired: " ++ shown)])
    (fun error => log Err [AStr "Error handling PayPal subscription expired:"; AErr error]).

Definition handlePayPalSubscriptionPaymentCompleted (resource : value) : prog unit :=
  try_catch
    (id <- lift (get resource "id") ;;
     shown <- lift (toStr id) ;;
     log Info [AStr ("PayPal subscription payment completed: " ++ shown)])
    (fun error =>
       log Err [AStr "Error handling PayPal subscription payment completed:"; AErr error]).

Definition handlePayPalSubscriptionPaymentFailed (resource : value) : prog unit :=
  try_catch
    (id <- lift (get resource "id") ;;
     shown <- lift (toStr id) ;;
     log Info [AStr ("PayPal subscription payment failed: " ++ shown)])
    (fun error =>
       log Err [AStr "Error handling PayPal subscription payment failed:"; AErr error]).

(** *** The routes *)

(** The [case] labels of a [switch] whose every arm is one handler call
    followed by [break], in source order. *)
Definition stripe_cases : list (string * (value -> prog unit)) :=
  [ ("payment_intent.succeeded", handlePaymentIntentSucceeded);
    ("payment_intent.payment_failed", handlePaymentIntentFailed);
    ("invoice.payment_succeeded", handleInvoicePaymentSucceeded);
    ("invoice.payment_failed", handleInvoicePaymentFailed);
    ("checkout.session.completed", handleCheckoutSessionCompleted);
    ("customer.subscription.created", handleSubscriptionCreated);
    ("customer.subscription.updated", handleSubscriptionUpdated);
    ("customer.subscription.deleted", handleSubscriptionDeleted);
    ("customer.subscription.trial_will_end", handleSubscriptionTrialWillEnd) ].

Definition paypal_cases : list (string * (value -> prog unit)) :=
  [ ("PAYMENT.CAPTURE.COMPLETED", handlePayPalPaymentCompleted);
    ("PAYMENT.CAPTURE.DENIED", handlePayPalPaymentDenied);
    ("BILLING.SUBSCRIPTION.CREATED", handlePayPalSubscriptionCreated);
    ("BILLING.SUBSCRIPTION.ACTIVATED", handlePayPalSubscriptionActivated);
    ("BILLING.SUBSCRIPTION.CANCELLED", handlePayPalSubscriptionCancelled);
    ("BILLING.SUBSCRIPTION.EXPIRED", handlePayPalSubscriptionExpired);
    ("BILLING.SUBSCRIPTION.PAYMENT.COMPLETED", handlePayPalSubscriptionPaymentCompleted);
    ("BILLING.SUBSCRIPTION.PAYMENT.FAILED", handlePayPalSubscriptionPaymentFailed) ].

(** [switch (v)] compares with [===]: only a string equal to a label selects
    an arm. *)
Fixpoint select (v : value) (cases : list (string * (value -> prog unit)))
  : option (value -> prog unit) :=
  match cases with
  | [] => None
  | (label, h) :: rest =>
      match v with
      | VStr s => if (s =? label)%string then Some h else select v rest
      | _ => select v rest
      end
  end.

(** The argument expression [event.data.object] of a Stripe arm. *)
Definition event_object (event : value) : error + value :=
  match get event "data" with
  | inl e => inl e
  | inr data => get data "object"
  end.

Definition received : response := res_json (VObj [("received", VBool true)]).

(** [router.post('/stripe', express.raw(...), async (req, res) => ...)] *)
Definition stripe_route (req : request) : prog response :=
  try_catch
    (match header "stripe-signature" (headers req) with
     | None | Some "" =>
         log Err [AStr "No Stripe signature found in webhook"] ;;
         Ret (res_status_json 400 (VObj [("error", VStr "No signature found")]))
     | Some signature =>
         verified <-
           try_catch
             (event <- verifyWebhookSignature (body req) signature ;;
              Ret (inr event))
             (fun error =>
                log Err [AStr "Webhook signature verification failed:"; AErr error] ;;
                Ret (inl (res_status_json 400
                            (VObj [("error", VStr "Invalid signature")])))) ;;
         match verified with
         | inl rejected => Ret rejected
         | inr event =>
             type <- lift (get event "type") ;;
             shown <- lift (toStr type) ;;
             log Info [AStr ("Processing Stripe webhook: " ++ shown)] ;;
             match select type stripe_cases with
             | Some handler =>
                 object <- lift (event_object event) ;;
                 handler object
             | None =>
                 shown <- lift (toStr type) ;;
                 log Info [AStr ("Unhandled Stripe event type: " ++ shown)]
             end ;;
             Ret received
         end
     end)
    (fun error =>
       log Err [AStr "Error processing Stripe webhook:"; AErr error] ;;
       Ret (res_status_json 500 (VObj [("error", VStr "Webhook processing failed")]))).

(** [const { event_type, resource_type, resource } = req.body] throws when
    [req.body] is [undefined] or [null]. *)
Definition destructure (v : value) (k : string) : error + value :=
  match v with
  | VUndefined =>
      inl (TypeError ("Cannot destructure property '" ++ k
                      ++ "' of 'req.body' as it is undefined."))
  | VNull =>
      inl (TypeError ("Cannot destructure property '" ++ k
                      ++ "' of 'req.body' as it is null."))
  | _ => get v k
  end.

(** [router.post('/paypal', async (req, res) => ...)] *)
Definition paypal_route (req : request) : prog response :=
  try_catch
    (event_type <- lift (destructure (body req) "event_type") ;;
     resource_type <- lift (destructure (body req) "resource_type") ;;
     resource <- lift (destructure (body req) "resource") ;;
     shown <- lift (toStr event_type) ;;
     log Info [AStr ("Processing PayPal webhook: " ++ shown)] ;;
     match select event_type paypal_cases with
     | Some handler => handler resource
     | None =>
         shown <- lift (toStr event_type) ;;
         log Info [AStr ("Unhandled PayPal event type: " ++ shown)]
     end ;;
     Ret received)
    (fun error =>
       log Err [AStr "Error processing PayPal webhook:"; AErr error] ;;
       Ret (res_status_json 500 (VObj [("error", VStr "Webhook processing failed")]))).

End Webhooks.

(** ** The two providers side by side *)

(** The router mounts one route per provider under [/api/webhooks]. *)
Inductive provider : Type := Stripe | PayPal.

Definition provider_name (p : provider) : string :=
  match p with
  | Stripe => "Stripe"
  | PayPal => "PayPal"
  end.

Definition route (AUTH_SERVICE_URL : option string) (p : provider)
  : request -> prog response :=
  match p with
  | Stripe => stripe_route AUTH_SERVICE_URL
  | PayPal => paypal_route
  end.

(** The event types each route has a [case] for; the labels of the Stripe
    [switch] do not depend on the URL its handlers call. *)
Definition labels (p : provider) : list string :=
  match p with
  | Stripe => map fst (stripe_cases None)
  | PayPal => map fst paypal_cases
  end.

(** The delivery of one webhook request: the response sent to the provider
    (or the exception that escaped the route) and the world afterwards. *)
Definition deliver (route : request -> prog response) (env : environment)
    (req : request) (w : world) : (error + response) * world :=
  run env (route req) w.

(** The Stripe route up to its [switch], for a request whose signature the
    SDK accepts and whose event type reads [shown]: what the trace has gained
    when the arm is entered. *)
Definition verified_prefix (req : request) (signature : string) (ev : value)
    (shown : string) : list event :=
  [ EConstruct (body req) signature (inr ev);
    ELog Info [AStr ("Processing Stripe webhook: " ++ shown)] ].

(** [admitted env w p req type gate]: in world [w], the request gets past
    everything that precedes the route's [switch] and presents an event of
    type [type]; [gate] is what this adds to the trace.  On the Stripe route
    the signature header is there and the SDK accepts it; on the PayPal route
    the body can be destructured. *)
Inductive admitted (env : environment) (w : world)
  : provider -> request -> value -> list event -> Prop :=
| admitted_stripe (req : request) (signature : string) (ev type : value) :
    header "stripe-signature" (headers req) = Some signature ->
    signature <> "" ->
    constructEvent env (trace w) (body req) signature = inr ev ->
    get ev "type" = inr type ->
    admitted env w Stripe req type [EConstruct (body req) signature (inr ev)]
| admitted_paypal (req : request) (type : value) :
    destructure (body req) "event_type" = inr type ->
    admitted env w PayPal req type [].

(** ** Reading a tree and a trace *)

(** No [Write] node anywhere in the tree: the code has no statement that
    touches the store. *)
Fixpoint writes_nothing {A : Type} (p : prog A) : Prop :=
  match p with
  | Ret _ | Throw _ => True
  | Log _ _ k => writes_nothing k
  | Fetch _ k => forall r, writes_nothing (k r)
  | Construct _ _ k => forall r, writes_nothing (k r)
  | Write _ _ => False
  end.

(** No [Throw] leaf anywhere in the tree: whatever the environment answers,
    the code returns normally. *)
Fixpoint never_throws {A : Type} (p : prog A) : Prop :=
  match p with
  | Ret _ => True
  | Throw _ => False
  | Log _ _ k => never_throws k
  | Fetch _ k => forall r, never_throws (k r)
  | Construct _ _ k => forall r, never_throws (k r)
  | Write _ k => forall r, never_throws (k r)
  end.

(** No node but [Log]: the tree asks nothing of the environment. *)
Fixpoint log_only {A : Type} (p : prog A) : Prop :=
  match p with
  | Ret _ | Throw _ => True
  | Log _ _ k => log_only k
  | _ => False
  end.

(** The events a tree of [Log] nodes leaves, and the leaf it ends in. *)
Fixpoint emitted {A : Type} (p : prog A) : list event :=
  match p with
  | Log l args k => ELog l args :: emitted k
  | _ => []
  end.

Fixpoint leaf {A : Type} (p : prog A) : option (error + A) :=
  match p with
  | Ret a => Some (inr a)
  | Throw e => Some (inl e)
  | Log _ _ k => leaf k
  | _ => None
  end.

(** The calls to the authentication service in a trace. *)
Fixpoint dispatches (es : list event) : list http_request :=
  match es with
  | [] => []
  | EFetch rq _ :: rest => rq :: dispatches rest
  | _ :: rest => dispatches rest
  end.

(** The call that tells the authentication service the plan of the user
    whose id reads [user]. *)
Definition plan_update (AUTH_SERVICE_URL : option string) (user : string)
    (planId : value) : http_request :=
  mkHttp "PATCH"
    (setting AUTH_SERVICE_URL ++ "/auth/users/" ++ user ++ "/plan")
    "application/json"
    (VObj [("planId", planId)]).

(** Every call to the authentication service among the events [es] failed. *)
Definition all_failed (es : list event) : Prop :=
  Forall (fun e => match e with
                   | EFetch _ r => failed r = true
                   | _ => True
                   end) es.

(** The log line [s], at level [Info], as it stands in a trace. *)
Definition is_line (s : string) (e : event) : bool :=
  match e with
  | ELog Info [AStr s'] => (s =? s')%string
  | _ => false
  end.

Definition count_lines (s : string) (es : list event) : nat :=
  length (filter (is_line s) es).

(** ** The claims' readings that the code is compared with *)

(** C7 as written: afterwards the store holds a subscription that is ACTIVE
    on plan "pro", and the identity service was sent
    [PATCH /users/u1/plan {planId:"pro"}]. *)
Definition subscription_created_as_claimed (base : option string) (w : world)
  : Prop :=
  (exists s, In s (subscriptions (entities w))
             /\ get s "status" = inr (VStr "ACTIVE")
             /\ get s "planId" = inr (VStr "pro"))
  /\ (exists rq, In rq (dispatches (trace w))
                 /\ method rq = "PATCH"
                 /\ url rq = setting base ++ "/users/u1/plan"
                 /\ json rq = VObj [("planId", VStr "pro")]).






(** The event types whose handler carries the plan-update block. *)
Definition propagating : list string :=
  [ "checkout.session.completed";
    "customer.subscription.created";
    "customer.subscription.updated" ].

(** C8 as written: a failed delivery is attempted again, so a delivery that
    keeps failing shows at least two attempts between [w] and [w']. *)
Definition retried (w w' : world) : Prop :=
  (length (dispatches (trace w)) + 2 <= length (dispatches (trace w')))%nat.

(** C6 as written: dispatch has used up its retry budget, the subscription
    whose transition the delivery committed is held in the store as ACTIVE,
    and the answer is 200. *)
Definition dispatch_failure_as_claimed (w w' : world) (r : error + response)
  : Prop :=
  retried w w'
  /\ (exists s, In s (subscriptions (entities w'))
                /\ get s "status" = inr (VStr "ACTIVE"))
  /\ (exists resp, r = inr resp /\ status resp = 200).

(** C9 as written: of two deliveries of one event only the winner of the
    claim is processed, so the handler's line is logged once. *)
Definition processed_exactly_once (line : string) (w : world) : Prop :=
  count_lines line (trace w) = 1%nat.

(** ** Sample inputs *)

Definition w0 : world := mkWorld (mkStore [] [] []) [].

(** A world whose store holds one active subscription. *)
Definition w_active : world :=
  mkWorld
    (mkStore []
       [VObj [("providerSubscriptionId", VStr "sub_1"); ("planId", VStr "pro");
              ("status", VStr "active")]]
       [])
    [].

Definition auth_url : option string := Some "http://localhost:5002".

(** A Stripe SDK that accepts exactly the signature ["t=1,v1=good"] and then
    yields the body as the event; a network on which every call fails; a
    network on which the authentication service answers 200. *)
Definition sdk (_ : list event) (b : value) (s : string) : error + value :=
  if (s =? "t=1,v1=good")%string then inr b
  else inl (Error "No signatures found matching the expected signature for payload").

Definition net_down (_ : list event) (_ : http_request) : error + http_response :=
  inl (Error "connect ECONNREFUSED").

Definition net_up (_ : list event) (_ : http_request) : error + http_response :=
  inr (mkHttpResponse 200 "OK" (inr "{}")).

Definition env_down : environment := mkEnv net_down sdk (fun _ => inr tt).

Definition env_up : environment := mkEnv net_up sdk (fun _ => inr tt).

Definition stripe_event (type : string) (object : value) : value :=
  VObj [("id", VStr "evt_1"); ("type", VStr type);
        ("data", VObj [("object", object)])].

Definition paypal_event (type : string) (resource : value) : value :=
  VObj [("id", VStr "evt_9"); ("event_type", VStr type); ("resource", resource)].

Definition signed (b : value) : request :=
  mkRequest [("content-type", "application/json"); ("stripe-signature", "t=1,v1=good")] b.

Definition sub_1 : value :=
  VObj [("id", VStr "sub_1");
        ("metadata", VObj [("userId", VStr "u1"); ("planId", VStr "pro")])].

Definition cs_1 : value :=
  VObj [("id", VStr "cs_1"); ("mode", VStr "subscription");
        ("metadata", VObj [("userId", VStr "u1"); ("planId", VStr "pro")])].

Definition pi_1 : value :=
  VObj [("id", VStr "pi_1"); ("amount", VNum "2000"); ("currency", VStr "eur");
        ("status", VStr "succeeded")].

(** A request to the Stripe route without a [stripe-signature] header. *)
Definition unsigned : request :=
  mkRequest [("content-type", "application/json")]
    (stripe_event "payment_intent.succeeded" pi_1).

Definition sub_created : request :=
  signed (stripe_event "customer.subscription.created" sub_1).

Definition checkout_completed : request :=
  signed (stripe_event "checkout.session.completed" cs_1).

(** A Stripe event type the route has no [case] for. *)
Definition charge_refunded : request :=
  signed (stripe_event "charge.refunded" (VObj [("id", VStr "ch_1")])).

Definition evt_9 : request :=
  mkRequest [] (paypal_event "PAYMENT.CAPTURE.COMPLETED" (VObj [("id", VStr "cap_9")])).

(** A PayPal notification whose transmission headers are forged: nothing in
    it was signed by PayPal. *)
Definition forged : request :=
  mkRequest
    [ ("content-type", "application/json");
      ("paypal-transmission-id", "forged");
      ("paypal-transmission-sig", "forged");
      ("paypal-cert-url", "https://attacker.example/cert.pem") ]
    (paypal_event "BILLING.SUBSCRIPTION.CREATED" (VObj [("id", VStr "I-FORGED")])).


(** * The rest of the service's request path *)

(** ** routes/webhooks.js: the test webhook *)

(** [router.post('/test', async (req, res) => ...)], the development
    endpoint that sends the plan update directly.  As in the handlers, the
    dynamic import of [node-fetch] is taken to resolve. *)
Definition test_route (AUTH_SERVICE_URL : option string) (req : request)
  : prog response :=
  try_catch
    (userId <- lift (destructure (body req) "userId") ;;
     planId <- lift (destructure (body req) "planId") ;;
     if negb (truthy userId) || negb (truthy planId)
     then Ret (res_status_json 400
                 (VObj [("error", VStr "userId and planId are required")]))
     else
       user <- lift (toStr userId) ;;
       plan <- lift (toStr planId) ;;
       log Info [AStr ("Test webhook - updating user " ++ user
                       ++ " to plan " ++ plan)] ;;
       try_catch
         (let authServiceUrl := AUTH_SERVICE_URL in
          user <- lift (toStr userId) ;;
          response <- fetch
            (mkHttp "PATCH"
               (setting authServiceUrl ++ "/auth/users/" ++ user ++ "/plan")
               "application/json"
               (VObj [("planId", planId)])) ;;
          log Info [AStr "Test PATCH response status:";
                    AVal (VNum (string_of_Z (http_status response)))] ;;
          responseBody <- lift (text response) ;;
          log Info [AStr "Test PATCH response body:"; AVal (VStr responseBody)] ;;
          if negb (ok response)
          then
            log Err [AStr ("Failed to update user plan in auth service: "
                           ++ string_of_Z (http_status response) ++ " "
                           ++ statusText response)] ;;
            Ret (res_status_json 500
                   (VObj [("error", VStr "Failed to update user plan")]))
          else
            user <- lift (toStr userId) ;;
            plan <- lift (toStr planId) ;;
            log Info [AStr ("User " ++ user ++ " plan updated to "
                            ++ plan ++ " in auth service.")] ;;
            user <- lift (toStr userId) ;;
            plan <- lift (toStr planId) ;;
            Ret (res_json
                   (VObj [("success", VBool true);
                          ("message", VStr ("User " ++ user
                                            ++ " plan updated to " ++ plan))])))
         (fun err =>
            log Err [AStr "Test PATCH request failed:"; AErr err] ;;
            Ret (res_status_json 500
                   (VObj [("error", VStr "Failed to update user plan");
                          ("details", VStr (message err))]))))
    (fun error =>
       log Err [AStr "Error in test webhook:"; AErr error] ;;
       Ret (res_status_json 500
              (VObj [("error", VStr "Test webhook failed");
                     ("details", VStr (message error))]))).

(** ** middleware/auth.js *)

(** What a middleware does with a request: it answers, or it hands the
    request on with [next()], here after setting [req.user]. *)
Inductive handled : Type :=
| Sent (r : response)
| Next (user : value).

Section Auth.

(** [jwt.verify(token, process.env.JWT_SECRET)]: the decoded payload, or the
    error thrown. *)
Variable jwt_verify : string -> error + value.

(** [authMiddleware(req, res, next)].  ['Bearer '] is ASCII, so
    [startsWith] and [substring(7)] act on the header's first seven
    characters here as in JavaScript. *)
Definition authMiddleware (req : request) : prog handled :=
  try_catch
    (let required :=
       Ret (Sent (res_status_json 401
                    (VObj [("error", VStr "Authentication required");
                           ("message", VStr "Bearer token is required")]))) in
     match header "authorization" (headers req) with
     | None => required
     | Some authHeader =>
         if negb (truthy (VStr authHeader)) || negb (String.prefix "Bearer " authHeader)
         then required
         else
           let token := String.substring 7 (String.length authHeader - 7) authHeader in
           if negb (truthy (VStr token))
           then Ret (Sent (res_status_json 401
                             (VObj [("error", VStr "Authentication required");
                                    ("message", VStr "Token is required")])))
           else
             decoded <- lift (jwt_verify token) ;;
             id <- lift (get decoded "id") ;;
             email <- lift (get decoded "email") ;;
             username <- lift (get decoded "username") ;;
             let user := VObj [("id", id); ("email", email); ("username", username)] in
             shown <- lift (toStr email) ;;
             log Info [AStr ("Authenticated user: " ++ shown)] ;;
             Ret (Next user)
     end)
    (fun error =>
       log Err [AStr "Authentication error:"; AErr error] ;;
       if (name error =? "TokenExpiredError")%string
       then Ret (Sent (res_status_json 401
                         (VObj [("error", VStr "Token expired");
                                ("message",
                                 VStr "Your session has expired. Please log in again.")])))
       else if (name error =? "JsonWebTokenError")%string
       then Ret (Sent (res_status_json 401
                         (VObj [("error", VStr "Invalid token");
                                ("message", VStr "Invalid authentication token.")])))
       else Ret (Sent (res_status_json 500
                         (VObj [("error", VStr "Authentication failed");
                                ("message",
                                 VStr "An error occurred during authentication.")])))).

End Auth.

(** ** middleware/errorHandler.js *)

(** [a || b] evaluates to [a] when [a] is truthy, and to [b] otherwise. *)
Definition js_or (a b : value) : value := if truthy a then a else b.

(** [v === 'literal'] *)
Definition is_string (v : value) (literal : string) : bool :=
  match v with
  | VStr s => (s =? literal)%string
  | _ => false
  end.

(** [v?.k] *)
Definition optional_get (v : value) (k : string) : error + value :=
  match v with
  | VUndefined | VNull => inr VUndefined
  | _ => get v k
  end.

(** What the handler passes to [res.status(...)] and to [.json(...)]; the
    status is whatever value the error carried. *)
Record reply : Type := mkReply { code : value; content : value }.

(** [errorHandler(err, req, res, next)].  The thrown value [err] is given by
    the properties that can be read from it ([name], [message], [stack],
    [code], [statusCode], [details], own or inherited); of the request the
    handler reads [url], [method] and [user].  [NODE_ENV] is
    [process.env.NODE_ENV]. *)
Definition errorHandler (NODE_ENV : value) (err req_url req_method req_user : value)
  : prog reply :=
  message <- lift (get err "message") ;;
  stack <- lift (get err "stack") ;;
  id <- lift (optional_get req_user "id") ;;
  log Err [AStr "Error occurred:";
           AVal (VObj [("error", message); ("stack", stack); ("url", req_url);
                       ("method", req_method);
                       ("user", js_or id (VStr "anonymous"))])] ;;
  name <- lift (get err "name") ;;
  code <- lift (get err "code") ;;
  if is_string name "ValidationError" then
    details <- lift (get err "details") ;;
    Ret (mkReply (VNum "400")
           (VObj [("error", VStr "Validation Error"); ("message", message);
                  ("details", details)]))
  else if is_string name "StripeError" then
    Ret (mkReply (VNum "400")
           (VObj [("error", VStr "Payment Error"); ("message", message);
                  ("code", code)]))
  else if is_string name "PayPalError" then
    Ret (mkReply (VNum "400")
           (VObj [("error", VStr "PayPal Error"); ("message", message);
                  ("code", code)]))
  else if is_string code "ER_DUP_ENTRY" then
    Ret (mkReply (VNum "409")
           (VObj [("error", VStr "Duplicate Entry");
                  ("message", VStr "A record with this information already exists.")]))
  else if is_string code "ER_NO_REFERENCED_ROW_2" then
    Ret (mkReply (VNum "400")
           (VObj [("error", VStr "Reference Error");
                  ("message", VStr "Referenced record does not exist.")]))
  else if is_string name "JsonWebTokenError" then
    Ret (mkReply (VNum "401")
           (VObj [("error", VStr "Invalid Token");
                  ("message", VStr "Invalid authentication token.")]))
  else if is_string name "TokenExpiredError" then
    Ret (mkReply (VNum "401")
           (VObj [("error", VStr "Token Expired");
                  ("message", VStr "Authentication token has expired.")]))
  else
    statusCode <- lift (get err "statusCode") ;;
    let statusCode := js_or statusCode (VNum "500") in
    let message := js_or message (VStr "Internal Server Error") in
    Ret (mkReply statusCode
           (VObj ([("error", VStr "Server Error");
                   ("message",
                    if is_string NODE_ENV "production"
                    then VStr "An unexpected error occurred."
                    else message)]
                  ++ (if negb (is_string NODE_ENV "production")
                      then [("stack", stack)]
                      else [])))).

(** ** Reading the routes *)

(** The route of provider [p] has a [case] for the event type [type]. *)
Definition has_case (p : provider) (type : value) : bool :=
  match type with
  | VStr t => existsb (String.eqb t) (labels p)
  | _ => false
  end.

Definition no_signature : response :=
  res_status_json 400 (VObj [("error", VStr "No signature found")]).

Definition invalid_signature : response :=
  res_status_json 400 (VObj [("error", VStr "Invalid signature")]).

Definition processing_failed : response :=
  res_status_json 500 (VObj [("error", VStr "Webhook processing failed")]).

(** A value that a template literal can render. *)
Definition printable (v : value) : bool :=
  match toStr v with
  | inr _ => true
  | inl _ => false
  end.

(** The answer of the Stripe route as a table over what the request carries
    and what the SDK says of it ([verify] is the SDK at the time of the
    request): neither the network nor the database nor anything a handler
    does enters it. *)
Definition stripe_answer (verify : value -> string -> error + value)
    (req : request) : response :=
  match header "stripe-signature" (headers req) with
  | None | Some "" => no_signature
  | Some signature =>
      match verify (body req) signature with
      | inl _ => invalid_signature
      | inr ev =>
          match get ev "type" with
          | inl _ => processing_failed
          | inr type =>
              if negb (printable type) then processing_failed
              else if has_case Stripe type
              then match event_object ev with
                   | inl _ => processing_failed
                   | inr _ => received
                   end
              else received
          end
      end
  end.

(** The answer of the PayPal route: it depends on nothing but whether there
    is a body to destructure and whether its [event_type] can be rendered
    in the log line. *)
Definition paypal_answer (req : request) : response :=
  match destructure (body req) "event_type" with
  | inl _ => processing_failed
  | inr event_type =>
      if printable event_type then received else processing_failed
  end.

(** Whatever the network answers, and whatever the SDK says of any payload
    at any time, the tree calls the authentication service with exactly the
    requests [l], in this order. *)
Fixpoint calls {A : Type} (env : environment) (l : list http_request) (p : prog A)
  : Prop :=
  match p with
  | Ret _ | Throw _ => l = []
  | Log _ _ k => calls env l k
  | Fetch rq k =>
      match l with
      | [] => False
      | rq' :: l' => rq = rq' /\ forall r, calls env l' (k r)
      end
  | Construct b s k => forall history, calls env l (k (constructEvent env history b s))
  | Write _ k => forall r, calls env l (k r)
  end.

(** Every path through the tree calls the authentication service at most
    [n] times. *)
Fixpoint calls_at_most {A : Type} (n : nat) (p : prog A) : Prop :=
  match p with
  | Ret _ | Throw _ => True
  | Log _ _ k => calls_at_most n k
  | Fetch _ k =>
      match n with
      | O => False
      | S m => forall r, calls_at_most m (k r)
      end
  | Construct _ _ k => forall r, calls_at_most n (k r)
  | Write _ k => forall r, calls_at_most n (k r)
  end.

(** [userId && planId], as the three handlers read them from the object's
    metadata; [None] when reading throws. *)
Definition plan_of (object : value) : option (value * value) :=
  match get object "metadata" with
  | inl _ => None
  | inr m =>
      if truthy m
      then match get m "userId", get m "planId" with
           | inr userId, inr planId => Some (userId, planId)
           | _, _ => None
           end
      else Some (m, m)
  end.

(** What the handler of a propagating event type renders in its log lines
    before it comes to the plan update: the checkout handler the session's
    [id] and, with [userId], the [planId]; the two subscription handlers
    nothing. *)
Definition announced (type : string) (object planId : value) : bool :=
  if (type =? "checkout.session.completed")%string
  then match get object "id" with
       | inr id => printable id && printable planId
       | inl _ => false
       end
  else true.

(** The calls the handler of the propagating event type [type] makes for
    the object of its event: the plan update when both [userId] and [planId]
    are truthy, [userId] can be rendered in the URL and the handler's log
    lines can be rendered; none otherwise. *)
Definition plan_calls (AUTH_SERVICE_URL : option string) (type : string)
    (object : value) : list http_request :=
  match plan_of object with
  | Some (userId, planId) =>
      match toStr userId with
      | inr user =>
          if truthy userId && truthy planId && announced type object planId
          then [plan_update AUTH_SERVICE_URL user planId]
          else []
      | inl _ => []
      end
  | None => []
  end.

(** The update reached the authentication service: the call returned, its
    body could be read, and the status is a 2xx. *)
Definition delivered (r : error + http_response) : bool :=
  match r with
  | inl _ => false
  | inr response =>
      match text response with
      | inl _ => false
      | inr _ => ok response
      end
  end.

(** The line the test route logs before it calls, for a user and a plan
    that read [user] and [plan]. *)
Definition test_announcement (user plan : string) : event :=
  ELog Info [AStr ("Test webhook - updating user " ++ user
                   ++ " to plan " ++ plan)].

(** ** More sample inputs *)

(** A parsed object that no template literal can render: its [toString] is
    a property of its own and not a function. *)
Definition unrenderable : value := VObj [("toString", VNum "1")].

(** A checkout session with the usual metadata and such an [id]. *)
Definition cs_2 : value :=
  VObj [("id", unrenderable);
        ("metadata", VObj [("userId", VStr "u1"); ("planId", VStr "pro")])].

(** A subscription whose metadata lacks the plan. *)
Definition sub_2 : value :=
  VObj [("id", VStr "sub_2"); ("metadata", VObj [("userId", VStr "u2")])].

Definition sub_updated : request :=
  signed (stripe_event "customer.subscription.updated" sub_2).

Definition test_request : request :=
  mkRequest [("content-type", "application/json")]
    (VObj [("userId", VStr "u1"); ("planId", VStr "pro")]).

Definition test_request_without_plan : request :=
  mkRequest [("content-type", "application/json")] (VObj [("userId", VStr "u1")]).

(** A [jwt.verify] that accepts one token. *)
Definition jwt_sample (token : string) : error + value :=
  if (token =? "good.token")%string
  then inr (VObj [("id", VStr "u1"); ("email", VStr "u1@example.org");
                  ("username", VStr "user one"); ("iat", VNum "1700000000")])
  else inl (mkError "JsonWebTokenError" "invalid token").

Definition with_authorization (value : string) : request :=
  mkRequest [("authorization", value)] VUndefined.

(** A Stripe error that also carries a duplicate-entry code and a status. *)
Definition card_declined : value :=
  VObj [("name", VStr "StripeError"); ("message", VStr "Your card was declined.");
        ("code", VStr "ER_DUP_ENTRY"); ("statusCode", VNum "409");
        ("stack", VStr "StripeError: Your card was declined.")].

(** A plain [Error] with a status of its own. *)
Definition not_found : value :=
  VObj [("name", VStr "Error"); ("message", VStr "no plan named enterprise in db01");
        ("statusCode", VNum "404");
        ("stack", VStr "Error: no plan named enterprise in db01")].

(** * Properties *)

(** ** The effect trees *)

Lemma record_extend (e : event) (w : world) : record e w = extend w [e].
Proof. reflexivity. Qed.

Lemma extend_extend (w : world) (es es' : list event) :
  extend (extend w es) es' = extend w (es ++ es').
Proof. unfold extend; simpl. now rewrite app_assoc. Qed.

Lemma extend_nil (w : world) : extend w [] = w.
Proof. destruct w; unfold extend; simpl. now rewrite app_nil_r. Qed.

Lemma dispatches_app (es es' : list event) :
  dispatches (es ++ es') = (dispatches es ++ dispatches es')%list.
Proof.
  induction es as [|e es IH]; simpl; [reflexivity|].
  destruct e; simpl; now rewrite IH.
Qed.

Section Trees.

Context {A : Type}.

Lemma writes_nothing_bind {B : Type} (p : prog A) (f : A -> prog B) :
  writes_nothing p -> (forall a, writes_nothing (f a)) -> writes_nothing (bind p f).
Proof. induction p; simpl; intros Hp Hf; auto; contradiction. Qed.

Lemma writes_nothing_try_catch (p : prog A) (h : error -> prog A) :
  writes_nothing p -> (forall e, writes_nothing (h e)) -> writes_nothing (try_catch p h).
Proof. induction p; simpl; intros Hp Hh; auto; contradiction. Qed.

Lemma writes_nothing_lift (r : error + A) : writes_nothing (lift r).
Proof. now destruct r. Qed.

Lemma never_throws_bind {B : Type} (p : prog A) (f : A -> prog B) :
  never_throws p -> (forall a, never_throws (f a)) -> never_throws (bind p f).
Proof. induction p; simpl; intros Hp Hf; auto; contradiction. Qed.

(** A [try] whose [catch] block cannot throw cannot throw, whatever its
    body does. *)
Lemma never_throws_try_catch (p : prog A) (h : error -> prog A) :
  (forall e, never_throws (h e)) -> never_throws (try_catch p h).
Proof. induction p; simpl; intros Hh; auto. Qed.

(** The interpreter changes the store at [Write] nodes only. *)
Lemma run_writes_nothing (env : environment) (p : prog A) (w : world) :
  writes_nothing p -> entities (snd (run env p w)) = entities w.
Proof.
  revert w; induction p as [a|e|l args k IH|rq k IH|b s k IH|f k IH];
    simpl; intros w Hp; try reflexivity.
  - now rewrite IH.
  - now rewrite IH.
  - now rewrite IH.
  - contradiction.
Qed.

Lemma run_never_throws (env : environment) (p : prog A) (w : world) :
  never_throws p -> exists a, fst (run env p w) = inr a.
Proof.
  revert w; induction p as [a|e|l args k IH|rq k IH|b s k IH|f k IH];
    simpl; intros w Hp; eauto; contradiction.
Qed.

(** On a network where every call fails, every call in the trace failed. *)
Lemma run_all_failed (env : environment) (p : prog A) (w : world) :
  (forall history rq, failed (net env history rq) = true) ->
  exists es, trace (snd (run env p w)) = (trace w ++ es)%list /\ all_failed es.
Proof.
  intros Hnet.
  revert w; induction p as [a|e|l args k IH|rq k IH|b s k IH|f k IH];
    simpl; intros w;
    try (exists []; split; [now rewrite app_nil_r | constructor]).
  - destruct (IH (record (ELog l args) w)) as (es & -> & Hes). simpl.
    exists (ELog l args :: es). split; [now rewrite <- app_assoc|].
    now constructor.
  - destruct (IH (net env (trace w) rq)
                (record (EFetch rq (net env (trace w) rq)) w)) as (es & -> & Hes).
    simpl. eexists. split; [now rewrite <- app_assoc|].
    constructor; [apply Hnet | exact Hes].
  - destruct (IH (constructEvent env (trace w) b s)
                (record (EConstruct b s (constructEvent env (trace w) b s)) w))
      as (es & -> & Hes). simpl.
    eexists. split; [now rewrite <- app_assoc|].
    now constructor.
  - match goal with |- context [run env ?q ?w'] =>
      destruct (IH (db env (trace w)) w') as (es & -> & Hes) end. simpl.
    eexists. split; [now rewrite <- app_assoc|].
    now constructor.
Qed.

End Trees.

Lemma run_bind {A B : Type} (env : environment) (p : prog A) (f : A -> prog B)
    (w : world) :
  run env (bind p f) w =
  match run env p w with
  | (inr a, w') => run env (f a) w'
  | (inl e, w') => (inl e, w')
  end.
Proof.
  revert w; induction p as [a|e|l args k IH|rq k IH|b s k IH|g k IH];
    simpl; intros w; auto.
Qed.

Lemma run_try_catch {A : Type} (env : environment) (p : prog A)
    (h : error -> prog A) (w : world) :
  run env (try_catch p h) w =
  match run env p w with
  | (inr a, w') => (inr a, w')
  | (inl e, w') => run env (h e) w'
  end.
Proof.
  revert w; induction p as [a|e|l args k IH|rq k IH|b s k IH|g k IH];
    simpl; intros w; auto.
Qed.

(** [log_only] goes through sequencing and [try]/[catch]. *)
Lemma log_only_bind {A B : Type} (p : prog A) (f : A -> prog B) :
  log_only p -> (forall a, log_only (f a)) -> log_only (bind p f).
Proof. induction p; simpl; intros Hp Hf; auto; contradiction. Qed.

Lemma log_only_try_catch {A : Type} (p : prog A) (h : error -> prog A) :
  log_only p -> (forall e, log_only (h e)) -> log_only (try_catch p h).
Proof. induction p; simpl; intros Hp Hh; auto; contradiction. Qed.

Lemma log_only_lift {A : Type} (r : error + A) : log_only (lift r).
Proof. now destruct r. Qed.

Lemma log_only_writes_nothing {A : Type} (p : prog A) :
  log_only p -> writes_nothing p.
Proof. induction p; simpl; auto; contradiction. Qed.

(** Walks down a tree built from [try_catch], [bind], [lift] and [log],
    splitting on every test it meets. *)
Ltac walk :=
  repeat first
    [ exact I
    | progress intros
    | apply writes_nothing_lift
    | apply log_only_lift
    | apply writes_nothing_try_catch
    | apply writes_nothing_bind
    | apply never_throws_try_catch
    | apply log_only_try_catch
    | apply log_only_bind
    | progress simpl
    | match goal with
      | |- context [if ?b then _ else _] => destruct b
      | |- context [match ?r with inl _ => _ | inr _ => _ end] => destruct r
      end ].

(** ** The handlers *)

Section Handlers.

Variable AUTH_SERVICE_URL : option string.

Lemma metadata_field_writes_nothing (o : value) (k : string) :
  writes_nothing (metadata_field o k).
Proof. unfold metadata_field. walk. Qed.

Lemma patch_user_plan_writes_nothing (userId planId : value) :
  writes_nothing (patch_user_plan AUTH_SERVICE_URL userId planId).
Proof. unfold patch_user_plan, fetch. walk. Qed.

Lemma patch_user_plan_never_throws (userId planId : value) :
  never_throws (patch_user_plan AUTH_SERVICE_URL userId planId).
Proof. unfold patch_user_plan. walk. Qed.

(** No arm of either [switch] holds a statement that writes to the store. *)
Lemma stripe_cases_write_nothing :
  Forall (fun c => forall v, writes_nothing (snd c v)) (stripe_cases AUTH_SERVICE_URL).
Proof.
  unfold stripe_cases.
  repeat (apply Forall_cons; [intros v; cbn [snd] |]); try apply Forall_nil.
  all: unfold handlePaymentIntentSucceeded, handlePaymentIntentFailed,
         handleInvoicePaymentSucceeded, handleInvoicePaymentFailed,
         handleCheckoutSessionCompleted, handleSubscriptionCreated,
         handleSubscriptionUpdated, handleSubscriptionDeleted,
         handleSubscriptionTrialWillEnd, metadata_field, patch_user_plan, fetch;
       walk.
Qed.

(** Every arm is wrapped in its own [try]/[catch] that only logs: no handler
    lets an exception out. *)
Lemma stripe_cases_never_throw :
  Forall (fun c => forall v, never_throws (snd c v)) (stripe_cases AUTH_SERVICE_URL).
Proof.
  unfold stripe_cases.
  repeat (apply Forall_cons; [intros v; cbn [snd] |]); try apply Forall_nil.
  all: apply never_throws_try_catch; intros e; exact I.
Qed.

Lemma paypal_cases_log_only :
  Forall (fun c => forall v, log_only (snd c v)) paypal_cases.
Proof.
  unfold paypal_cases.
  repeat (apply Forall_cons; [intros v; cbn [snd] |]); try apply Forall_nil.
  all: unfold handlePayPalPaymentCompleted, handlePayPalPaymentDenied,
         handlePayPalSubscriptionCreated, handlePayPalSubscriptionActivated,
         handlePayPalSubscriptionCancelled, handlePayPalSubscriptionExpired,
         handlePayPalSubscriptionPaymentCompleted,
         handlePayPalSubscriptionPaymentFailed; walk.
Qed.

Lemma paypal_cases_never_throw :
  Forall (fun c => forall v, never_throws (snd c v)) paypal_cases.
Proof.
  unfold paypal_cases.
  repeat (apply Forall_cons; [intros v; cbn [snd] |]); try apply Forall_nil.
  all: apply never_throws_try_catch; intros e; exact I.
Qed.

End Handlers.

(** ** The [switch] statements *)

Lemma select_Forall (P : (value -> prog unit) -> Prop) (v : value)
    (cases : list (string * (value -> prog unit))) (h : value -> prog unit) :
  Forall (fun c => P (snd c)) cases -> select v cases = Some h -> P h.
Proof.
  induction 1 as [|[label h'] rest Hh _ IH]; simpl; [discriminate|].
  destruct v; auto.
  destruct (s =? label)%string; auto.
  now intros [= <-].
Qed.

(** A string that is no [case] label falls to [default]. *)
Lemma select_unlisted (type : string) (cases : list (string * (value -> prog unit))) :
  ~ In type (map fst cases) -> select (VStr type) cases = None.
Proof.
  induction cases as [|[label h] rest IH]; simpl; [reflexivity|].
  intros Hnot.
  destruct (String.eqb_spec type label) as [->|_]; [tauto|].
  apply IH. tauto.
Qed.

(** A label selects an arm. *)
Lemma select_listed (type : string) (cases : list (string * (value -> prog unit))) :
  In type (map fst cases) -> exists h, select (VStr type) cases = Some h.
Proof.
  induction cases as [|[label h] rest IH]; simpl; [tauto|].
  intros [<-|Hin].
  - rewrite String.eqb_refl. eauto.
  - destruct (type =? label)%string; eauto.
Qed.

(** ** The routes *)

Section Routes.

Variable AUTH_SERVICE_URL : option string.

Lemma verifyWebhookSignature_writes_nothing (b : value) (s : string) :
  writes_nothing (verifyWebhookSignature b s).
Proof. unfold verifyWebhookSignature, stripe_constructEvent. walk. Qed.

(** Neither route holds a statement that writes to the store. *)
Lemma stripe_route_writes_nothing (req : request) :
  writes_nothing (stripe_route AUTH_SERVICE_URL req).
Proof.
  unfold stripe_route.
  apply writes_nothing_try_catch; [|walk].
  destruct (header "stripe-signature" (headers req)) as [[|c s]|]; [walk| |walk].
  apply writes_nothing_bind.
  { apply writes_nothing_try_catch; [|walk].
    apply writes_nothing_bind; [apply verifyWebhookSignature_writes_nothing|walk]. }
  intros [rejected|event]; [walk|].
  apply writes_nothing_bind; [walk|intros type].
  apply writes_nothing_bind; [walk|intros shown].
  apply writes_nothing_bind; [walk|intros []].
  apply writes_nothing_bind; [|walk].
  destruct (select type (stripe_cases AUTH_SERVICE_URL)) as [handler|] eqn:Hsel; [|walk].
  apply writes_nothing_bind; [walk|intros object].
  revert object.
  exact (select_Forall (fun h => forall v, writes_nothing (h v)) _ _ _
           (stripe_cases_write_nothing AUTH_SERVICE_URL) Hsel).
Qed.

Lemma paypal_route_log_only (req : request) : log_only (paypal_route req).
Proof.
  unfold paypal_route.
  apply log_only_try_catch; [|walk].
  apply log_only_bind; [walk|intros event_type].
  apply log_only_bind; [walk|intros resource_type].
  apply log_only_bind; [walk|intros resource].
  apply log_only_bind; [walk|intros shown].
  apply log_only_bind; [walk|intros []].
  apply log_only_bind; [|walk].
  destruct (select event_type paypal_cases) as [handler|] eqn:Hsel; [|walk].
  exact (select_Forall (fun h => forall v, log_only (h v)) _ _ _
           paypal_cases_log_only Hsel resource).
Qed.

Lemma paypal_route_writes_nothing (req : request) :
  writes_nothing (paypal_route req).
Proof. apply log_only_writes_nothing, paypal_route_log_only. Qed.

(** Each route ends in a [catch] that answers 500: a route always sends a
    response. *)
Lemma stripe_route_never_throws (req : request) :
  never_throws (stripe_route AUTH_SERVICE_URL req).
Proof. unfold stripe_route. apply never_throws_try_catch. walk. Qed.

Lemma paypal_route_never_throws (req : request) : never_throws (paypal_route req).
Proof. unfold paypal_route. apply never_throws_try_catch. walk. Qed.

(** A call of a handler returns, and leaves the store as it found it. *)
Lemma stripe_handler_returns (env : environment) (type object : value)
    (handler : value -> prog unit) (w : world) :
  select type (stripe_cases AUTH_SERVICE_URL) = Some handler ->
  fst (run env (handler object) w) = inr tt
  /\ entities (snd (run env (handler object) w)) = entities w.
Proof.
  intros Hsel. split.
  - destruct (run_never_throws env (handler object) w) as [[] H]; [|exact H].
    exact (select_Forall (fun h => forall v, never_throws (h v)) _ _ _
             (stripe_cases_never_throw AUTH_SERVICE_URL) Hsel object).
  - apply run_writes_nothing.
    exact (select_Forall (fun h => forall v, writes_nothing (h v)) _ _ _
             (stripe_cases_write_nothing AUTH_SERVICE_URL) Hsel object).
Qed.

(** The Stripe route for a request whose signature the SDK accepts: the
    [default] arm acknowledges; an arm whose argument [event.data.object]
    cannot be read ends in the route's [catch] with a 500; otherwise the
    handler runs and the route acknowledges. *)
Lemma stripe_route_verified (env : environment) (req : request) (w : world)
    (signature : string) (ev type : value) (shown : string) :
  header "stripe-signature" (headers req) = Some signature ->
  signature <> "" ->
  constructEvent env (trace w) (body req) signature = inr ev ->
  get ev "type" = inr type ->
  toStr type = inr shown ->
  run env (stripe_route AUTH_SERVICE_URL req) w =
  match select type (stripe_cases AUTH_SERVICE_URL) with
  | None =>
      (inr received,
       extend w (verified_prefix req signature ev shown ++
                 [ELog Info [AStr ("Unhandled Stripe event type: " ++ shown)]]))
  | Some handler =>
      match event_object ev with
      | inl e =>
          (inr (res_status_json 500 (VObj [("error", VStr "Webhook processing failed")])),
           extend w (verified_prefix req signature ev shown ++
                     [ELog Err [AStr "Error processing Stripe webhook:"; AErr e]]))
      | inr object =>
          (inr received,
           snd (run env (handler object)
                  (extend w (verified_prefix req signature ev shown))))
      end
  end.
Proof.
  intros Hhdr Hsig Hsdk Htype Hshown.
  unfold stripe_route. rewrite Hhdr.
  destruct signature as [|c s]; [congruence|].
  rewrite run_try_catch, run_bind.
  unfold verifyWebhookSignature, stripe_constructEvent.
  rewrite run_try_catch, run_bind, run_try_catch.
  cbn [run]. rewrite Hsdk. cbn [lift run bind try_catch].
  rewrite run_bind, Htype. cbn [lift run].
  rewrite run_bind, Hshown. cbn [lift run].
  rewrite run_bind. cbn [log run].
  rewrite !record_extend, !extend_extend. cbn [app].
  fold (verified_prefix req (String c s) ev shown).
  rewrite run_bind.
  destruct (select type (stripe_cases AUTH_SERVICE_URL)) as [handler|] eqn:Hsel.
  - rewrite run_bind.
    destruct (event_object ev) as [e|object]; cbn [lift run bind log].
    + now rewrite record_extend, extend_extend.
    + destruct (stripe_handler_returns env type object handler
                  (extend w (verified_prefix req (String c s) ev shown)) Hsel)
        as [Hret _].
      destruct (run env (handler object) _) as [r w']. cbn [fst snd] in *.
      now subst r.
  - cbn [lift bind log run]. now rewrite record_extend, extend_extend.
Qed.

(** A verified event whose type cannot be rendered in the route's first log
    line ends in the route's [catch]. *)
Lemma stripe_route_type_unprintable (env : environment) (req : request)
    (w : world) (signature : string) (ev type : value) (e : error) :
  header "stripe-signature" (headers req) = Some signature ->
  signature <> "" ->
  constructEvent env (trace w) (body req) signature = inr ev ->
  get ev "type" = inr type ->
  toStr type = inl e ->
  run env (stripe_route AUTH_SERVICE_URL req) w =
  (inr (res_status_json 500 (VObj [("error", VStr "Webhook processing failed")])),
   extend w [ EConstruct (body req) signature (inr ev);
              ELog Err [AStr "Error processing Stripe webhook:"; AErr e] ]).
Proof.
  intros Hhdr Hsig Hsdk Htype Hshown.
  unfold stripe_route. rewrite Hhdr.
  destruct signature as [|c s]; [congruence|].
  rewrite run_try_catch, run_bind.
  unfold verifyWebhookSignature, stripe_constructEvent.
  rewrite run_try_catch, run_bind, run_try_catch.
  cbn [run]. rewrite Hsdk. cbn [lift run bind try_catch].
  rewrite run_bind, Htype. cbn [lift run].
  rewrite run_bind, Hshown. cbn [lift run log bind].
  now rewrite !record_extend, !extend_extend.
Qed.

(** The Stripe route for a request whose signature the SDK refuses: the
    service logs, the route logs, and the answer is 400. *)
Lemma stripe_route_invalid_signature (env : environment) (req : request)
    (w : world) (signature : string) (e : error) :
  header "stripe-signature" (headers req) = Some signature ->
  signature <> "" ->
  constructEvent env (trace w) (body req) signature = inl e ->
  run env (stripe_route AUTH_SERVICE_URL req) w =
  (inr (res_status_json 400 (VObj [("error", VStr "Invalid signature")])),
   extend w
     [ EConstruct (body req) signature (inl e);
       ELog Err [AStr "Webhook signature verification failed:"; AErr e];
       ELog Err [AStr "Webhook signature verification failed:";
                 AErr (Error ("Webhook signature verification failed: " ++ message e))] ]).
Proof.
  intros Hhdr Hsig Hsdk.
  unfold stripe_route. rewrite Hhdr.
  destruct signature as [|c s]; [congruence|].
  rewrite run_try_catch, run_bind.
  unfold verifyWebhookSignature, stripe_constructEvent.
  rewrite run_try_catch, run_bind, run_try_catch.
  cbn [run]. rewrite Hsdk. cbn [lift run bind try_catch log].
  now rewrite !record_extend, !extend_extend.
Qed.

(** The PayPal route reads nothing but [req.body]: whatever the headers
    carry, the event is dispatched. *)
Lemma paypal_route_run (env : environment) (req : request) (w : world)
    (event_type resource : value) (shown : string) :
  destructure (body req) "event_type" = inr event_type ->
  destructure (body req) "resource" = inr resource ->
  toStr event_type = inr shown ->
  run env (paypal_route req) w =
  let entered :=
    extend w [ELog Info [AStr ("Processing PayPal webhook: " ++ shown)]] in
  match select event_type paypal_cases with
  | None =>
      (inr received,
       extend entered
         [ELog Info [AStr ("Unhandled PayPal event type: " ++ shown)]])
  | Some handler => (inr received, snd (run env (handler resource) entered))
  end.
Proof.
  intros Htype Hres Hshown.
  assert (exists resource_type, destructure (body req) "resource_type" = inr resource_type)
    as [resource_type Hrt].
  { destruct (body req); try discriminate; simpl; eauto. }
  unfold paypal_route.
  rewrite run_try_catch, run_bind, Htype. cbn [lift run].
  rewrite run_bind, Hrt. cbn [lift run].
  rewrite run_bind, Hres. cbn [lift run].
  rewrite run_bind, Hshown. cbn [lift run].
  rewrite run_bind. cbn [log run]. rewrite record_extend.
  rewrite run_bind.
  destruct (select event_type paypal_cases) as [handler|] eqn:Hsel.
  - pose proof (select_Forall (fun h => forall v, never_throws (h v)) _ _ _
                  paypal_cases_never_throw Hsel resource) as Hnt.
    destruct (run_never_throws env (handler resource)
                (extend w [ELog Info [AStr ("Processing PayPal webhook: "
                                            ++ shown)]]) Hnt) as [[] Hret].
    cbv zeta.
    destruct (run env (handler resource) _) as [r w']. cbn [fst snd] in *.
    now subst r.
  - cbn [lift bind log run]. now rewrite record_extend.
Qed.

End Routes.

(** Neither route ever changes the store. *)
Lemma delivery_leaves_store (AUTH_SERVICE_URL : option string) (env : environment)
    (p : provider) (req : request) (w : world) :
  entities (snd (deliver (route AUTH_SERVICE_URL p) env req w)) = entities w.
Proof.
  unfold deliver. apply run_writes_nothing.
  destruct p; [apply stripe_route_writes_nothing | apply paypal_route_writes_nothing].
Qed.

(** ** Requests that are turned away *)

(** C10: a POST to the Stripe webhook without a [stripe-signature] header is
    answered 400 with [{error: 'No signature found'}]; the route is then
    nothing but one error log followed by that answer, so the SDK is not
    asked to verify anything, no handler is called, and the store is left as
    it was. *)
Theorem C10_missing_signature_rejected (AUTH_SERVICE_URL : option string)
    (env : environment) (req : request) (w : world) :
  header "stripe-signature" (headers req) = None ->
  stripe_route AUTH_SERVICE_URL req =
    Log Err [AStr "No Stripe signature found in webhook"]
      (Ret (mkResponse 400 (VObj [("error", VStr "No signature found")])))
  /\ deliver (stripe_route AUTH_SERVICE_URL) env req w =
     (inr (mkResponse 400 (VObj [("error", VStr "No signature found")])),
      extend w [ELog Err [AStr "No Stripe signature found in webhook"]]).
Proof.
  intros Hhdr.
  assert (stripe_route AUTH_SERVICE_URL req =
          Log Err [AStr "No Stripe signature found in webhook"]
            (Ret (mkResponse 400 (VObj [("error", VStr "No signature found")]))))
    as Htree.
  { unfold stripe_route. now rewrite Hhdr. }
  split; [exact Htree|].
  unfold deliver. now rewrite Htree.
Qed.

(** ** Events outside the mapping table *)

Lemma labels_stripe (AUTH_SERVICE_URL : option string) :
  map fst (stripe_cases AUTH_SERVICE_URL) = labels Stripe.
Proof. reflexivity. Qed.

(** C3: an event whose type string is no [case] label of the provider's
    route is logged as unhandled and acknowledged with 200
    [{received: true}]; nothing else happens, and the store is left as it
    was. *)
Theorem C3_unrecognized_event_acknowledged (AUTH_SERVICE_URL : option string)
    (env : environment) (w : world) (p : provider) (req : request)
    (type : string) (gate : list event) :
  admitted env w p req (VStr type) gate ->
  ~ In type (labels p) ->
  deliver (route AUTH_SERVICE_URL p) env req w =
  (inr (mkResponse 200 (VObj [("received", VBool true)])),
   extend w
     (gate ++
      [ ELog Info [AStr ("Processing " ++ provider_name p ++ " webhook: " ++ type)];
        ELog Info [AStr ("Unhandled " ++ provider_name p ++ " event type: " ++ type)] ])).
Proof.
  intros Hadm Hnot. unfold deliver.
  inversion Hadm as [req' signature ev type' Hhdr Hsig Hsdk Htype
                    |req' type' Htype]; subst; cbn [route].
  - rewrite (stripe_route_verified AUTH_SERVICE_URL env req w signature ev
               (VStr type) type Hhdr Hsig Hsdk Htype eq_refl).
    rewrite <- (labels_stripe AUTH_SERVICE_URL) in Hnot.
    now rewrite (select_unlisted _ _ Hnot).
  - assert (exists resource, destructure (body req) "resource" = inr resource)
      as [resource Hres].
    { destruct (body req); try discriminate; simpl; eauto. }
    rewrite (paypal_route_run env req w (VStr type) resource type Htype Hres eq_refl).
    rewrite (select_unlisted _ _ Hnot). cbv zeta.
    now rewrite extend_extend.
Qed.

(** Runs a route on a given request in an arbitrary world. *)
Ltac evaluate :=
  unfold deliver; cbn;
  rewrite ?record_extend, ?extend_extend; cbn [app];
  try reflexivity.

(** C2: the claim holds on the Stripe route
    ([stripe_route_invalid_signature]) and fails on the PayPal route, which
    verifies nothing: a notification whose transmission headers are forged
    is dispatched to its handler and acknowledged with 200. *)
Theorem C2_forged_paypal_notification_processed (env : environment) (w : world) :
  deliver paypal_route env forged w =
  (inr (mkResponse 200 (VObj [("received", VBool true)])),
   extend w
     [ ELog Info [AStr "Processing PayPal webhook: BILLING.SUBSCRIPTION.CREATED"];
       ELog Info [AStr "PayPal subscription created: I-FORGED"] ]).
Proof. evaluate. Qed.

(** ** Failures inside a handler *)


(** ** Acknowledgment and persistence *)

(** C4: the claim fails.  For a verified [payment_intent.succeeded] the
    handler logs one line and the route acknowledges with 200; no write
    reaches the store, which is exactly as before, without any payment
    [pi_1] in it. *)
Theorem C4_acknowledged_without_persistence (AUTH_SERVICE_URL : option string) :
  deliver (stripe_route AUTH_SERVICE_URL) env_up
    (signed (stripe_event "payment_intent.succeeded" pi_1)) w0 =
  (inr (mkResponse 200 (VObj [("received", VBool true)])),
   mkWorld (mkStore [] [] [])
     [ EConstruct (stripe_event "payment_intent.succeeded" pi_1) "t=1,v1=good"
         (inr (stripe_event "payment_intent.succeeded" pi_1));
       ELog Info [AStr "Processing Stripe webhook: payment_intent.succeeded"];
       ELog Info [AStr "Payment intent succeeded: pi_1"] ]).
Proof. reflexivity. Qed.

(** ** The call to the authentication service *)

(** The block makes one call and returns, whatever the answer; everything
    else it does is logging, and a failed call ends in an error log. *)
Lemma patch_user_plan_run (AUTH_SERVICE_URL : option string) (env : environment)
    (userId planId : value) (user : string) (w : world) :
  toStr userId = inr user ->
  let rq := plan_update AUTH_SERVICE_URL user planId in
  let r := net env (trace w) rq in
  exists es,
    run env (patch_user_plan AUTH_SERVICE_URL userId planId) w
    = (inr tt, extend w (EFetch rq r :: es))
    /\ dispatches es = []
    /\ (failed r = true -> exists es' args, es = (es' ++ [ELog Err args])%list).
Proof.
  intros Huser rq r. subst r rq. unfold patch_user_plan, fetch, plan_update.
  rewrite Huser. cbn [lift bind try_catch run].
  destruct (net env (trace w) _) as [e|resp]; cbn [lift bind try_catch log run].
  - eexists. rewrite !record_extend, !extend_extend. cbn [app].
    split; [reflexivity|]. split; [reflexivity|].
    intros _. now exists [], [AStr "PATCH request failed:"; AErr e].
  - destruct (text resp) as [e|responseBody]; cbn [lift bind try_catch log run].
    + eexists. rewrite !record_extend, !extend_extend. cbn [app].
      split; [reflexivity|]. split; [reflexivity|].
      intros _.
      now exists [ELog Info [AStr "PATCH response status:";
                             AVal (VNum (string_of_Z (http_status resp)))]],
                 [AStr "PATCH request failed:"; AErr e].
    + unfold failed. destruct (ok resp); cbn [negb log lift bind try_catch run].
      * destruct (toStr planId) as [e|plan]; cbn [log lift bind try_catch run];
          eexists; rewrite !record_extend, !extend_extend; cbn [app];
          (split; [reflexivity|]); (split; [reflexivity|]); discriminate.
      * eexists. rewrite !record_extend, !extend_extend. cbn [app].
        split; [reflexivity|]. split; [reflexivity|].
        intros _.
        now exists [ELog Info [AStr "PATCH response status:";
                               AVal (VNum (string_of_Z (http_status resp)))];
                    ELog Info [AStr "PATCH response body:"; AVal (VStr responseBody)]],
                   [AStr ("Failed to update user plan in auth service: "
                          ++ string_of_Z (http_status resp) ++ " " ++ statusText resp)].
Qed.

(** A [userId] that cannot be rendered in the URL: nothing is sent, the
    block's [catch] logs the [TypeError]. *)
Lemma patch_user_plan_unprintable (AUTH_SERVICE_URL : option string)
    (env : environment) (userId planId : value) (e : error) (w : world) :
  toStr userId = inl e ->
  run env (patch_user_plan AUTH_SERVICE_URL userId planId) w
  = (inr tt, extend w [ELog Err [AStr "PATCH request failed:"; AErr e]]).
Proof.
  intros Huser. unfold patch_user_plan. rewrite Huser.
  cbn [lift bind try_catch log run]. now rewrite record_extend.
Qed.

(** ** Redelivery *)

(** C1: delivering a webhook request a second time, under the same or
    another behaviour of the environment, leaves every payment, subscription
    and customer in the state the first delivery left them in. *)
Theorem C1_redelivery_idempotent (AUTH_SERVICE_URL : option string)
    (env env' : environment) (p : provider) (req : request) (w : world) :
  let once := snd (deliver (route AUTH_SERVICE_URL p) env req w) in
  let twice := snd (deliver (route AUTH_SERVICE_URL p) env' req once) in
  entities twice = entities once.
Proof. intros once twice. apply delivery_leaves_store. Qed.

(** C8 (amended): the block that delivers a plan update makes exactly one
    call, for a [userId] that the URL can render; when that call fails - it
    throws, or the answer is outside 2xx - the failure is logged at error
    level, no further attempt is made, and the block returns normally. *)
Theorem C8_single_attempt_no_retry (AUTH_SERVICE_URL : option string)
    (env : environment) (userId planId : value) (user : string) (w : world) :
  toStr userId = inr user ->
  failed (net env (trace w) (plan_update AUTH_SERVICE_URL user planId)) = true ->
  exists es args,
    run env (patch_user_plan AUTH_SERVICE_URL userId planId) w
    = (inr tt,
       extend w
         (EFetch (plan_update AUTH_SERVICE_URL user planId)
            (net env (trace w) (plan_update AUTH_SERVICE_URL user planId))
          :: es ++ [ELog Err args]))
    /\ dispatches es = [].
Proof.
  intros Huser Hfailed.
  destruct (patch_user_plan_run AUTH_SERVICE_URL env userId planId user w Huser)
    as (es0 & Hrun & Hnone & Hlog).
  destruct (Hlog Hfailed) as (es & args & ->).
  exists es, args. split; [exact Hrun|].
  rewrite dispatches_app in Hnone.
  now apply app_eq_nil in Hnone.
Qed.

(** ** Subscription created *)

Lemma metadata_field_run (env : environment) (o m v : value) (k : string)
    (w : world) :
  get o "metadata" = inr m -> truthy m = true -> get m k = inr v ->
  run env (metadata_field o k) w = (inr v, w).
Proof.
  intros Hmeta Htruthy Hget. unfold metadata_field.
  rewrite run_bind, Hmeta. cbn [lift run]. now rewrite Htruthy, Hget.
Qed.

(** C7 (amended): a verified [customer.subscription.created] whose
    subscription carries the metadata [{userId: "u1", planId: "pro"}] is
    acknowledged, and the delivery makes exactly one call to the
    authentication service:
    [PATCH <AUTH_SERVICE_URL>/auth/users/u1/plan] with the JSON body
    [{planId: "pro"}]. *)
Theorem C7_subscription_created_dispatch (AUTH_SERVICE_URL : option string)
    (env : environment) (req : request) (w : world) (signature : string)
    (ev subscription metadata : value) :
  header "stripe-signature" (headers req) = Some signature ->
  signature <> "" ->
  constructEvent env (trace w) (body req) signature = inr ev ->
  get ev "type" = inr (VStr "customer.subscription.created") ->
  event_object ev = inr subscription ->
  get subscription "metadata" = inr metadata ->
  truthy metadata = true ->
  get metadata "userId" = inr (VStr "u1") ->
  get metadata "planId" = inr (VStr "pro") ->
  fst (deliver (stripe_route AUTH_SERVICE_URL) env req w)
    = inr (mkResponse 200 (VObj [("received", VBool true)]))
  /\ dispatches (trace (snd (deliver (stripe_route AUTH_SERVICE_URL) env req w)))
     = (dispatches (trace w) ++
        [mkHttp "PATCH" (setting AUTH_SERVICE_URL ++ "/auth/users/u1/plan")
           "application/json" (VObj [("planId", VStr "pro")])])%list.
Proof.
  intros Hhdr Hsig Hsdk Htype Hobj Hmeta Htruthy Huser Hplan. unfold deliver.
  rewrite (stripe_route_verified AUTH_SERVICE_URL env req w signature ev
             (VStr "customer.subscription.created") _ Hhdr Hsig Hsdk Htype eq_refl).
  cbn [select stripe_cases String.eqb Ascii.eqb Bool.eqb].
  rewrite Hobj. cbn [fst snd]. split; [reflexivity|].
  unfold handleSubscriptionCreated.
  rewrite run_try_catch, run_bind. cbn [log run].
  rewrite run_bind, (metadata_field_run env _ _ _ _ _ Hmeta Htruthy Huser).
  rewrite run_bind, (metadata_field_run env _ _ _ _ _ Hmeta Htruthy Hplan).
  rewrite run_bind. cbn [log run truthy js_and String.eqb negb].
  rewrite !record_extend, !extend_extend.
  match goal with |- context [run env _ ?w1] =>
    destruct (patch_user_plan_run AUTH_SERVICE_URL env (VStr "u1") (VStr "pro")
                "u1" w1 eq_refl)
      as (es & -> & Hnone & _)
  end.
  cbn [snd extend trace]. rewrite !dispatches_app. cbn [dispatches verified_prefix app].
  rewrite Hnone. now rewrite app_nil_r.
Qed.

(** ** Dispatch failures *)

Lemma truthy_nonempty (s : string) : s <> "" -> truthy (VStr s) = true.
Proof. intros Hs. simpl. now destruct (String.eqb_spec s ""). Qed.

(** C6 (amended): a verified event of one of the three types whose handler
    carries the plan update, with a user and a plan in its metadata, on a
    network where the call to the authentication service fails: the delivery
    makes that call once, logs the failure at error level, and is still
    acknowledged with 200 [{received: true}].  The world afterwards is the
    world before with a longer trace: no entity state is touched, so
    whatever was there before the dispatch failed is still there. *)
Theorem C6_dispatch_failure_logged_and_acknowledged
    (AUTH_SERVICE_URL : option string) (env : environment) (req : request)
    (w : world) (signature type id user plan : string)
    (ev object metadata : value) :
  header "stripe-signature" (headers req) = Some signature ->
  signature <> "" ->
  constructEvent env (trace w) (body req) signature = inr ev ->
  get ev "type" = inr (VStr type) ->
  In type propagating ->
  event_object ev = inr object ->
  get object "id" = inr (VStr id) ->
  get object "metadata" = inr metadata ->
  truthy metadata = true ->
  get metadata "userId" = inr (VStr user) ->
  user <> "" ->
  get metadata "planId" = inr (VStr plan) ->
  plan <> "" ->
  (forall history,
     failed (net env history (plan_update AUTH_SERVICE_URL user (VStr plan))) = true) ->
  exists before r after args,
    deliver (stripe_route AUTH_SERVICE_URL) env req w
    = (inr (mkResponse 200 (VObj [("received", VBool true)])),
       extend w
         (before
          ++ EFetch (plan_update AUTH_SERVICE_URL user (VStr plan)) r
          :: after ++ [ELog Err args]))
    /\ failed r = true
    /\ dispatches before = []
    /\ dispatches after = [].
Proof.
  intros Hhdr Hsig Hsdk Htype Hin Hobj Hid Hmeta Htruthy Huser Hu Hplan Hp Hnet.
  unfold deliver.
  rewrite (stripe_route_verified AUTH_SERVICE_URL env req w signature ev
             (VStr type) type Hhdr Hsig Hsdk Htype eq_refl).
  assert (truthy (js_and (VStr user) (VStr plan)) = true) as Hboth.
  { unfold js_and. now rewrite (truthy_nonempty user Hu), (truthy_nonempty plan Hp). }
  destruct Hin as [<-|[<-|[<-|[]]]];
    cbn [select stripe_cases String.eqb Ascii.eqb Bool.eqb]; rewrite Hobj;
    unfold handleCheckoutSessionCompleted, handleSubscriptionCreated,
      handleSubscriptionUpdated;
    rewrite run_try_catch, run_bind.
  - rewrite Hid. cbn [lift run]. rewrite run_bind. cbn [toStr lift run].
    rewrite run_bind. cbn [log run].
    rewrite run_bind, (metadata_field_run env _ _ _ _ _ Hmeta Htruthy Huser).
    rewrite run_bind, (metadata_field_run env _ _ _ _ _ Hmeta Htruthy Hplan).
    rewrite run_bind. cbn [toStr lift run]. rewrite run_bind. cbn [toStr lift run].
    rewrite run_bind. cbn [log run]. rewrite Hboth.
    rewrite !record_extend, !extend_extend.
    match goal with |- context [run env _ ?w1] =>
      destruct (patch_user_plan_run AUTH_SERVICE_URL env (VStr user) (VStr plan)
                  user w1 eq_refl) as (es & -> & Hnone & Hlog);
      destruct (Hlog (Hnet (trace w1))) as (after & args & ->)
    end.
    cbn [fst snd]. rewrite extend_extend.
    eexists _, _, after, args. split; [reflexivity|].
    split; [apply Hnet|]. split; [reflexivity|].
    rewrite dispatches_app in Hnone. now apply app_eq_nil in Hnone.
  - cbn [log run].
    rewrite run_bind, (metadata_field_run env _ _ _ _ _ Hmeta Htruthy Huser).
    rewrite run_bind, (metadata_field_run env _ _ _ _ _ Hmeta Htruthy Hplan).
    rewrite run_bind. cbn [log run]. rewrite Hboth.
    rewrite !record_extend, !extend_extend.
    match goal with |- context [run env _ ?w1] =>
      destruct (patch_user_plan_run AUTH_SERVICE_URL env (VStr user) (VStr plan)
                  user w1 eq_refl) as (es & -> & Hnone & Hlog);
      destruct (Hlog (Hnet (trace w1))) as (after & args & ->)
    end.
    cbn [fst snd]. rewrite extend_extend.
    eexists _, _, after, args. split; [reflexivity|].
    split; [apply Hnet|]. split; [reflexivity|].
    rewrite dispatches_app in Hnone. now apply app_eq_nil in Hnone.
  - cbn [log run].
    rewrite run_bind, (metadata_field_run env _ _ _ _ _ Hmeta Htruthy Huser).
    rewrite run_bind, (metadata_field_run env _ _ _ _ _ Hmeta Htruthy Hplan).
    rewrite run_bind. cbn [log run]. rewrite Hboth.
    rewrite !record_extend, !extend_extend.
    match goal with |- context [run env _ ?w1] =>
      destruct (patch_user_plan_run AUTH_SERVICE_URL env (VStr user) (VStr plan)
                  user w1 eq_refl) as (es & -> & Hnone & Hlog);
      destruct (Hlog (Hnet (trace w1))) as (after & args & ->)
    end.
    cbn [fst snd]. rewrite extend_extend.
    eexists _, _, after, args. split; [reflexivity|].
    split; [apply Hnet|]. split; [reflexivity|].
    rewrite dispatches_app in Hnone. now apply app_eq_nil in Hnone.
Qed.

(** ** Concurrent deliveries *)

(** Once either delivery has finished, the other runs to its end. *)
Lemma interleave_finished_l {A B : Type} (env : environment) (p : prog A)
    (q : prog B) (ra : error + A) (sched : list bool) (w : world) :
  finished p = Some ra ->
  interleave env p q sched w = (ra, fst (run env q w), snd (run env q w)).
Proof.
  destruct p; simpl; try discriminate; intros [= <-];
    destruct q; simpl; try reflexivity;
    match goal with |- context [run env ?k ?w'] => now destruct (run env k w') end.
Qed.

Lemma interleave_finished_r {A B : Type} (env : environment) (p : prog A)
    (q : prog B) (rb : error + B) (sched : list bool) (w : world) :
  finished q = Some rb ->
  interleave env p q sched w = (fst (run env p w), rb, snd (run env p w)).
Proof.
  destruct q; simpl; try discriminate; intros [= <-];
    destruct p; simpl; try reflexivity;
    match goal with |- context [run env ?k ?w'] => now destruct (run env k w') end.
Qed.

(** The first delivery makes the next effect. *)
Lemma interleave_step_l {A B : Type} (env : environment) (p p' : prog A)
    (q : prog B) (sched : list bool) (w w' : world) :
  step env p w = Some (p', w') ->
  finished q = None ->
  hd true sched = true ->
  interleave env p q sched w = interleave env p' q (tl sched) w'.
Proof.
  intros Hp Hq Hs.
  destruct p; try discriminate; injection Hp as <- <-;
    destruct q; try discriminate;
    destruct sched as [|[] rest]; try discriminate; reflexivity.
Qed.

(** The second delivery makes the next effect. *)
Lemma interleave_step_r {A B : Type} (env : environment) (p : prog A)
    (q q' : prog B) (rest : list bool) (w w' : world) :
  step env q w = Some (q', w') ->
  finished p = None ->
  interleave env p q (false :: rest) w = interleave env p q' rest w'.
Proof.
  intros Hq Hp.
  destruct q; try discriminate; injection Hq as <- <-;
    destruct p; try discriminate; reflexivity.
Qed.

(** Rewrites an interleaving in which one side has finished. *)
Ltac one_side_finished :=
  match goal with
  | |- context [interleave _ (Ret ?a) ?q ?s ?w1] =>
      rewrite (interleave_finished_l _ (Ret a) q _ s w1 eq_refl)
  | |- context [interleave _ (Throw ?e) ?q ?s ?w1] =>
      rewrite (interleave_finished_l _ (Throw e) q _ s w1 eq_refl)
  | |- context [interleave _ ?p (Ret ?a) ?s ?w1] =>
      rewrite (interleave_finished_r _ p (Ret a) _ s w1 eq_refl)
  | |- context [interleave _ ?p (Throw ?e) ?s ?w1] =>
      rewrite (interleave_finished_r _ p (Throw e) _ s w1 eq_refl)
  end.

(** Two trees without a write leave the store alone however they are
    interleaved. *)
Lemma interleave_writes_nothing {A B : Type} (env : environment) (p : prog A) :
  forall (q : prog B), writes_nothing p -> writes_nothing q ->
    forall (sched : list bool) (w : world),
      entities (snd (interleave env p q sched w)) = entities w.
Proof.
  induction p as [a|e|l args k IHp|x k IHp|b s k IHp|f k IHp]; intros q Hp Hq.
  1, 2: intros sched w; one_side_finished; now apply run_writes_nothing.
  4: contradiction.
  all: induction q as [a'|e'|l' args' k' IHq|x' k' IHq|b' s' k' IHq|f' k' IHq];
       intros sched w; try contradiction.
  all: try (one_side_finished; now apply run_writes_nothing).
  all: destruct (hd true sched) eqn:Hhd;
       [ erewrite interleave_step_l by (try reflexivity; exact Hhd);
         now rewrite IHp
       | destruct sched as [|[] rest]; try discriminate;
         erewrite interleave_step_r by reflexivity;
         now rewrite IHq ].
Qed.

(** Two trees that cannot throw both return however they are interleaved. *)
Lemma interleave_never_throws {A B : Type} (env : environment) (p : prog A) :
  forall (q : prog B), never_throws p -> never_throws q ->
    forall (sched : list bool) (w : world),
    exists a b, fst (interleave env p q sched w) = (inr a, inr b).
Proof.
  induction p as [a|e|l args k IHp|x k IHp|b s k IHp|f k IHp]; intros q Hp Hq.
  2: contradiction.
  1: { intros sched w. one_side_finished.
       destruct (run_never_throws env q w Hq) as [y Hy].
       exists a, y. cbn [fst]. now rewrite Hy. }
  all: induction q as [a'|e'|l' args' k' IHq|x' k' IHq|b' s' k' IHq|f' k' IHq];
       intros sched w; try contradiction.
  all: try (one_side_finished;
            match goal with |- context [run _ ?p0 ?w1] =>
              destruct (run_never_throws env p0 w1 Hp) as [y Hy]
            end;
            exists y, a'; cbn [fst]; now rewrite Hy).
  all: destruct (hd true sched) eqn:Hhd;
       [ erewrite interleave_step_l by (try reflexivity; exact Hhd);
         now apply IHp
       | destruct sched as [|[] rest]; try discriminate;
         erewrite interleave_step_r by reflexivity;
         now apply IHq ].
Qed.

Lemma log_only_leaf {A : Type} (p : prog A) :
  log_only p -> exists r, leaf p = Some r.
Proof.
  induction p as [a|e|l args k IH|rq k _|b s k _|f k _]; simpl; intros Hp;
    eauto; contradiction.
Qed.

(** A tree of [Log] nodes runs the same in every environment. *)
Lemma leaf_run {A : Type} (env : environment) (p : prog A) (r : error + A)
    (w : world) :
  leaf p = Some r -> run env p w = (r, extend w (emitted p)).
Proof.
  revert w; induction p as [a|e|l args k IH|rq k _|b s k _|f k _]; simpl; intros w H;
    try discriminate.
  - injection H as <-. now rewrite extend_nil.
  - injection H as <-. now rewrite extend_nil.
  - rewrite (IH _ H), record_extend, extend_extend. reflexivity.
Qed.

(** However two trees of [Log] nodes are interleaved, each reaches its own
    leaf, and the trace gains the lines of both. *)
Lemma interleave_logs {A B : Type} (env : environment) (p : prog A) :
  forall (q : prog B) (rp : error + A) (rq : error + B),
    leaf p = Some rp -> leaf q = Some rq ->
    forall (sched : list bool) (w : world),
    exists es,
      interleave env p q sched w = (rp, rq, extend w es)
      /\ Permutation es (emitted p ++ emitted q).
Proof.
  induction p as [a|e|l args k IHp|x k _|b s k _|f k _]; intros q rp rq Hp Hq;
    try discriminate.
  - intros sched w. exists (emitted q). split; [|reflexivity].
    one_side_finished.
    rewrite (leaf_run env q rq w Hq). now injection Hp as <-.
  - intros sched w. exists (emitted q). split; [|reflexivity].
    one_side_finished.
    rewrite (leaf_run env q rq w Hq). now injection Hp as <-.
  - induction q as [a'|e'|l' args' k' IHq|x k' _|b s k' _|f k' _];
      try discriminate; intros sched w.
    + exists (emitted (Log l args k)). split; [|now rewrite app_nil_r].
      one_side_finished.
      rewrite (leaf_run env _ rp w Hp). now injection Hq as <-.
    + exists (emitted (Log l args k)). split; [|now rewrite app_nil_r].
      one_side_finished.
      rewrite (leaf_run env _ rp w Hp). now injection Hq as <-.
    + destruct (hd true sched) eqn:Hhd.
      * erewrite interleave_step_l by (try reflexivity; exact Hhd).
        destruct (IHp (Log l' args' k') rp rq Hp Hq (tl sched)
                    (record (ELog l args) w)) as (es & -> & Hperm).
        exists (ELog l args :: es). split.
        -- now rewrite record_extend, extend_extend.
        -- cbn [emitted app]. now apply Permutation_cons.
      * destruct sched as [|[] rest]; try discriminate.
        erewrite interleave_step_r by reflexivity.
        destruct (IHq Hq rest (record (ELog l' args') w)) as (es & -> & Hperm).
        exists (ELog l' args' :: es). split.
        -- now rewrite record_extend, extend_extend.
        -- exact (Permutation_cons_app (ELog l args :: emitted k) (emitted k')
                    (ELog l' args') Hperm).
Qed.

(** C9 (amended): however two deliveries of one webhook request are
    interleaved, neither notices the other.  On either route both are
    answered and the store is left as it was.  On the PayPal route each
    delivery gets the response it would get alone and the trace gains the
    log lines of a single delivery twice over, so the event's handler runs
    once per delivery; nothing is recorded by which the second delivery
    could be recognised. *)
Theorem C9_concurrent_deliveries_both_processed (AUTH_SERVICE_URL : option string)
    (env : environment) (p : provider) (req : request) (sched : list bool)
    (w : world) :
  (exists (r1 r2 : response),
     fst (interleave env (route AUTH_SERVICE_URL p req)
            (route AUTH_SERVICE_URL p req) sched w) = (inr r1, inr r2)
     /\ entities (snd (interleave env (route AUTH_SERVICE_URL p req)
                         (route AUTH_SERVICE_URL p req) sched w)) = entities w)
  /\
  (exists (r : response) (alone both : list event),
     deliver paypal_route env req w = (inr r, extend w alone)
     /\ interleave env (paypal_route req) (paypal_route req) sched w
        = (inr r, inr r, extend w both)
     /\ Permutation both (alone ++ alone)).
Proof.
  split.
  - assert (never_throws (route AUTH_SERVICE_URL p req)) as Hnt.
    { destruct p; [apply stripe_route_never_throws | apply paypal_route_never_throws]. }
    assert (writes_nothing (route AUTH_SERVICE_URL p req)) as Hwn.
    { destruct p; [apply stripe_route_writes_nothing | apply paypal_route_writes_nothing]. }
    destruct (interleave_never_throws env _ _ Hnt Hnt sched w) as (r1 & r2 & Hr).
    exists r1, r2. split; [exact Hr|].
    now apply interleave_writes_nothing.
  - destruct (log_only_leaf _ (paypal_route_log_only req)) as [r Hleaf].
    pose proof (leaf_run env _ _ w Hleaf) as Hrun.
    destruct (run_never_throws env _ w (paypal_route_never_throws req)) as [a Ha].
    rewrite Hrun in Ha. cbn [fst] in Ha. subst r.
    destruct (interleave_logs env _ _ _ _ Hleaf Hleaf sched w)
      as (both & Hboth & Hperm).
    exists a, (emitted (paypal_route req)), both. now repeat split.
Qed.

(** ** The theorems at concrete inputs *)

Lemma C10_witness :
  header "stripe-signature" (headers unsigned) = None
  /\ (stripe_route auth_url unsigned =
        Log Err [AStr "No Stripe signature found in webhook"]
          (Ret (mkResponse 400 (VObj [("error", VStr "No signature found")])))
      /\ deliver (stripe_route auth_url) env_up unsigned w_active =
         (inr (mkResponse 400 (VObj [("error", VStr "No signature found")])),
          extend w_active [ELog Err [AStr "No Stripe signature found in webhook"]])).
Proof.
  split; [reflexivity|].
  apply (C10_missing_signature_rejected auth_url env_up unsigned w_active).
  reflexivity.
Defined.

Lemma C3_witness :
  admitted env_up w0 Stripe charge_refunded (VStr "charge.refunded")
    [EConstruct (body charge_refunded) "t=1,v1=good" (inr (body charge_refunded))]
  /\ ~ In "charge.refunded" (labels Stripe)
  /\ deliver (route auth_url Stripe) env_up charge_refunded w0 =
     (inr (mkResponse 200 (VObj [("received", VBool true)])),
      extend w0
        ([EConstruct (body charge_refunded) "t=1,v1=good" (inr (body charge_refunded))] ++
         [ ELog Info [AStr ("Processing " ++ provider_name Stripe ++ " webhook: "
                            ++ "charge.refunded")];
           ELog Info [AStr ("Unhandled " ++ provider_name Stripe ++ " event type: "
                            ++ "charge.refunded")] ])).
Proof.
  assert (admitted env_up w0 Stripe charge_refunded (VStr "charge.refunded")
            [EConstruct (body charge_refunded) "t=1,v1=good"
               (inr (body charge_refunded))]) as Hadm.
  { apply admitted_stripe; [reflexivity | discriminate | reflexivity | reflexivity]. }
  assert (~ In "charge.refunded" (labels Stripe)) as Hnot.
  { simpl. intuition discriminate. }
  split; [exact Hadm|]. split; [exact Hnot|].
  exact (C3_unrecognized_event_acknowledged auth_url env_up w0 Stripe
           charge_refunded "charge.refunded" _ Hadm Hnot).
Defined.


Lemma C6_witness :
  header "stripe-signature" (headers checkout_completed) = Some "t=1,v1=good"
  /\ constructEvent env_down (trace w_active) (body checkout_completed) "t=1,v1=good"
     = inr (body checkout_completed)
  /\ In "checkout.session.completed" propagating
  /\ (forall history,
        failed (net env_down history (plan_update auth_url "u1" (VStr "pro"))) = true)
  /\ exists before r after args,
       deliver (stripe_route auth_url) env_down checkout_completed w_active
       = (inr (mkResponse 200 (VObj [("received", VBool true)])),
          extend w_active
            (before
             ++ EFetch (plan_update auth_url "u1" (VStr "pro")) r
             :: after ++ [ELog Err args]))
       /\ failed r = true
       /\ dispatches before = []
       /\ dispatches after = [].
Proof.
  split; [reflexivity|]. split; [reflexivity|]. split; [simpl; tauto|].
  split; [intros; reflexivity|].
  apply (C6_dispatch_failure_logged_and_acknowledged auth_url env_down
           checkout_completed w_active "t=1,v1=good" "checkout.session.completed"
           "cs_1" "u1" "pro" (body checkout_completed) cs_1
           (VObj [("userId", VStr "u1"); ("planId", VStr "pro")]));
    try reflexivity; try discriminate.
  simpl. tauto.
Defined.

Lemma C7_witness :
  constructEvent env_up (trace w0) (body sub_created) "t=1,v1=good"
    = inr (body sub_created)
  /\ event_object (body sub_created) = inr sub_1
  /\ fst (deliver (stripe_route auth_url) env_up sub_created w0)
     = inr (mkResponse 200 (VObj [("received", VBool true)]))
  /\ dispatches (trace (snd (deliver (stripe_route auth_url) env_up sub_created w0)))
     = (dispatches (trace w0) ++
        [mkHttp "PATCH" (setting auth_url ++ "/auth/users/u1/plan")
           "application/json" (VObj [("planId", VStr "pro")])])%list.
Proof.
  split; [reflexivity|]. split; [reflexivity|].
  apply (C7_subscription_created_dispatch auth_url env_up sub_created w0
           "t=1,v1=good" (body sub_created) sub_1
           (VObj [("userId", VStr "u1"); ("planId", VStr "pro")]));
    try reflexivity.
  discriminate.
Defined.

Lemma C8_witness :
  toStr (VStr "u1") = inr "u1"
  /\ failed (net env_down (trace w0) (plan_update auth_url "u1" (VStr "pro"))) = true
  /\ exists es args,
       run env_down (patch_user_plan auth_url (VStr "u1") (VStr "pro")) w0
       = (inr tt,
          extend w0
            (EFetch (plan_update auth_url "u1" (VStr "pro"))
               (net env_down (trace w0) (plan_update auth_url "u1" (VStr "pro")))
             :: es ++ [ELog Err args]))
       /\ dispatches es = [].
Proof.
  split; [reflexivity|]. split; [reflexivity|].
  apply (C8_single_attempt_no_retry auth_url env_down (VStr "u1") (VStr "pro") "u1" w0);
    reflexivity.
Defined.

(** ** Where the claims fail *)


(** C6 as written fails: with the authentication service unreachable, the
    delivery of [customer.subscription.created] is acknowledged with 200,
    but it has made one call, not the three of a retry budget, and the store
    holds no subscription, ACTIVE or otherwise. *)
Lemma C6_counterexample :
  fst (deliver (stripe_route auth_url) env_down sub_created w0)
    = inr (mkResponse 200 (VObj [("received", VBool true)]))
  /\ dispatches (trace (snd (deliver (stripe_route auth_url) env_down sub_created w0)))
     = [plan_update auth_url "u1" (VStr "pro")]
  /\ subscriptions
       (entities (snd (deliver (stripe_route auth_url) env_down sub_created w0))) = []
  /\ ~ dispatch_failure_as_claimed w0
         (snd (deliver (stripe_route auth_url) env_down sub_created w0))
         (fst (deliver (stripe_route auth_url) env_down sub_created w0)).
Proof.
  split; [reflexivity|]. split; [reflexivity|]. split; [reflexivity|].
  intros (_ & (s & Hin & _) & _).
  vm_compute in Hin. exact Hin.
Qed.

(** C7 as written fails: after the delivery the store holds no subscription,
    and the one call that was made goes to [/auth/users/u1/plan]. *)
Lemma C7_counterexample :
  subscriptions
    (entities (snd (deliver (stripe_route auth_url) env_up sub_created w0))) = []
  /\ dispatches (trace (snd (deliver (stripe_route auth_url) env_up sub_created w0)))
     = [mkHttp "PATCH" "http://localhost:5002/auth/users/u1/plan"
          "application/json" (VObj [("planId", VStr "pro")])]
  /\ ~ subscription_created_as_claimed auth_url
         (snd (deliver (stripe_route auth_url) env_up sub_created w0)).
Proof.
  split; [reflexivity|]. split; [reflexivity|].
  intros [_ (rq & Hin & _ & Hurl & _)].
  vm_compute in Hin. destruct Hin as [<-|[]].
  vm_compute in Hurl. discriminate Hurl.
Qed.

(** C8 as written fails: with the authentication service unreachable, the
    delivery of a checkout completion makes one call and no second one. *)
Lemma C8_counterexample :
  dispatches (trace (snd (deliver (stripe_route auth_url) env_down checkout_completed w0)))
  = [plan_update auth_url "u1" (VStr "pro")]
  /\ ~ retried w0 (snd (deliver (stripe_route auth_url) env_down checkout_completed w0)).
Proof.
  split; [reflexivity|].
  unfold retried. vm_compute. lia.
Qed.

(** C9 as written fails: two interleaved deliveries of the capture
    notification [evt_9] are both acknowledged and both run the handler. *)
Lemma C9_counterexample :
  interleave env_up (paypal_route evt_9) (paypal_route evt_9)
    [true; false; false; true] w0
  = (inr received, inr received,
     extend w0
       [ ELog Info [AStr "Processing PayPal webhook: PAYMENT.CAPTURE.COMPLETED"];
         ELog Info [AStr "Processing PayPal webhook: PAYMENT.CAPTURE.COMPLETED"];
         ELog Info [AStr "PayPal payment completed: cap_9"];
         ELog Info [AStr "PayPal payment completed: cap_9"] ])
  /\ ~ processed_exactly_once "PayPal payment completed: cap_9"
         (snd (interleave env_up (paypal_route evt_9) (paypal_route evt_9)
                 [true; false; false; true] w0)).
Proof.
  split; [reflexivity|].
  unfold processed_exactly_once. vm_compute. discriminate.
Qed.

(** * The routes beyond the claims *)

(** ** What decides the answer *)

Lemma select_has_case (AUTH_SERVICE_URL : option string) (type : value) :
  match select type (stripe_cases AUTH_SERVICE_URL) with
  | Some _ => true
  | None => false
  end = has_case Stripe type.
Proof.
  unfold has_case. rewrite <- (labels_stripe AUTH_SERVICE_URL).
  induction (stripe_cases AUTH_SERVICE_URL) as [|[label h] rest IH];
    [now destruct type|].
  destruct type; try exact IH.
  cbn [select map fst existsb]. now destruct (s =? label)%string.
Qed.

(** A verified event whose [type] cannot be read ends in the route's
    [catch]. *)
Lemma stripe_route_type_unreadable (AUTH_SERVICE_URL : option string) (env : environment)
    (req : request) (w : world) (signature : string) (ev : value) (e : error) :
  header "stripe-signature" (headers req) = Some signature ->
  signature <> "" ->
  constructEvent env (trace w) (body req) signature = inr ev ->
  get ev "type" = inl e ->
  run env (stripe_route AUTH_SERVICE_URL req) w =
  (inr processing_failed,
   extend w [ EConstruct (body req) signature (inr ev);
              ELog Err [AStr "Error processing Stripe webhook:"; AErr e] ]).
Proof.
  intros Hhdr Hsig Hsdk Htype.
  unfold stripe_route. rewrite Hhdr.
  destruct signature as [|c s]; [congruence|].
  rewrite run_try_catch, run_bind.
  unfold verifyWebhookSignature, stripe_constructEvent.
  rewrite run_try_catch, run_bind, run_try_catch.
  cbn [run]. rewrite Hsdk. cbn [lift run bind try_catch].
  rewrite run_bind, Htype. cbn [lift run bind log].
  now rewrite !record_extend, !extend_extend.
Qed.

(** X1: the answer of the Stripe route is the table [stripe_answer] over
    the signature header, the SDK's verdict, whether the event's [type] can
    be read and rendered in the log line and, for a type with a [case],
    whether its [data.object] can be read.  The route answers with 200, 400
    or 500, and what the network answers or a handler does never changes the
    answer. *)
Theorem X1_stripe_route_answer (AUTH_SERVICE_URL : option string) (env : environment)
    (req : request) (w : world) :
  fst (deliver (stripe_route AUTH_SERVICE_URL) env req w)
  = inr (stripe_answer (constructEvent env (trace w)) req).
Proof.
  unfold deliver, stripe_answer.
  destruct (header "stripe-signature" (headers req)) as [signature|] eqn:Hhdr.
  - destruct signature as [|c s]; [unfold stripe_route; now rewrite Hhdr|].
    assert (Hsig : String c s <> "") by discriminate.
    remember (String c s) as signature eqn:Hshape. clear Hshape.
    destruct (constructEvent env (trace w) (body req) signature) as [e|ev] eqn:Hsdk.
    { now rewrite (stripe_route_invalid_signature AUTH_SERVICE_URL env req w
                     signature e Hhdr Hsig Hsdk). }
    destruct (get ev "type") as [e|type] eqn:Htype.
    { now rewrite (stripe_route_type_unreadable AUTH_SERVICE_URL env req w
                     signature ev e Hhdr Hsig Hsdk Htype). }
    unfold printable.
    destruct (toStr type) as [e|shown] eqn:Hshown; cbn [negb].
    { now rewrite (stripe_route_type_unprintable AUTH_SERVICE_URL env req w
                     signature ev type e Hhdr Hsig Hsdk Htype Hshown). }
    rewrite (stripe_route_verified AUTH_SERVICE_URL env req w signature ev type
               shown Hhdr Hsig Hsdk Htype Hshown).
    rewrite <- (select_has_case AUTH_SERVICE_URL type).
    destruct (select type (stripe_cases AUTH_SERVICE_URL)); [|reflexivity].
    now destruct (event_object ev).
  - unfold stripe_route. now rewrite Hhdr.
Qed.

(** X2: the Stripe route says 200 only to a request that carries a
    non-empty [stripe-signature] header which the SDK accepted for the
    request's body. *)
Theorem X2_no_acknowledgment_without_verification (AUTH_SERVICE_URL : option string)
    (env : environment) (req : request) (w : world) (r : response) :
  fst (deliver (stripe_route AUTH_SERVICE_URL) env req w) = inr r ->
  status r = 200 ->
  exists signature ev,
    header "stripe-signature" (headers req) = Some signature
    /\ signature <> ""
    /\ constructEvent env (trace w) (body req) signature = inr ev.
Proof.
  unfold deliver. intros Hrun Hstatus.
  destruct (header "stripe-signature" (headers req)) as [signature|] eqn:Hhdr.
  - destruct (string_dec signature "") as [->|Hsig].
    { unfold stripe_route in Hrun. rewrite Hhdr in Hrun.
      cbn in Hrun. injection Hrun as <-. discriminate. }
    destruct (constructEvent env (trace w) (body req) signature) as [e|ev] eqn:Hsdk.
    { rewrite (stripe_route_invalid_signature AUTH_SERVICE_URL env req w
                 signature e Hhdr Hsig Hsdk) in Hrun.
      cbn in Hrun. injection Hrun as <-. discriminate. }
    now exists signature, ev.
  - unfold stripe_route in Hrun. rewrite Hhdr in Hrun.
    cbn in Hrun. injection Hrun as <-. discriminate.
Qed.

(** X3: the PayPal route answers 500 when [req.body] is [undefined] or
    [null] or when the body's [event_type] cannot be rendered in the log
    line, and 200 [{received: true}] to every other body, whatever the
    resource, the headers, the network or the handler's fate. *)
Theorem X3_paypal_route_answer (env : environment) (req : request) (w : world) :
  fst (deliver paypal_route env req w) = inr (paypal_answer req).
Proof.
  unfold deliver, paypal_answer, printable.
  destruct (destructure (body req) "event_type") as [e|event_type] eqn:Htype.
  { unfold paypal_route. rewrite run_try_catch, run_bind. now rewrite Htype. }
  assert (exists resource_type, destructure (body req) "resource_type" = inr resource_type)
    as [resource_type Hrt].
  { destruct (body req); try discriminate; simpl; eauto. }
  assert (exists resource, destructure (body req) "resource" = inr resource)
    as [resource Hres].
  { destruct (body req); try discriminate; simpl; eauto. }
  destruct (toStr event_type) as [e|shown] eqn:Hshown.
  - unfold paypal_route.
    rewrite run_try_catch, run_bind, Htype. cbn [lift run].
    rewrite run_bind, Hrt. cbn [lift run].
    rewrite run_bind, Hres. cbn [lift run].
    rewrite run_bind, Hshown. reflexivity.
  - rewrite (paypal_route_run env req w event_type resource shown Htype Hres Hshown).
    cbv zeta. now destruct (select event_type paypal_cases).
Qed.

Lemma dispatches_emitted {A : Type} (p : prog A) : dispatches (emitted p) = [].
Proof. induction p; simpl; auto. Qed.

Lemma emitted_logs {A : Type} (p : prog A) :
  Forall (fun e => exists l args, e = ELog l args) (emitted p).
Proof. induction p; simpl; constructor; eauto. Qed.

(** X4: a delivery to the PayPal route does nothing but log: every event it
    adds to the trace is a log line.  It never calls the authentication
    service, never asks for a signature to be verified, never writes to the
    store; no PayPal event changes a user's plan. *)
Theorem X4_paypal_route_only_logs (env : environment) (req : request) (w : world) :
  exists es,
    snd (deliver paypal_route env req w) = extend w es
    /\ Forall (fun e => exists l args, e = ELog l args) es
    /\ dispatches (trace (snd (deliver paypal_route env req w)))
       = dispatches (trace w).
Proof.
  unfold deliver.
  destruct (log_only_leaf _ (paypal_route_log_only req)) as [r Hleaf].
  rewrite (leaf_run env _ _ w Hleaf). cbn [snd].
  exists (emitted (paypal_route req)). split; [reflexivity|].
  split; [apply emitted_logs|].
  cbn [extend trace]. rewrite dispatches_app, dispatches_emitted.
  now rewrite app_nil_r.
Qed.

(** ** Calls to the authentication service *)

Lemma run_calls {A : Type} (env : environment) (l : list http_request)
    (p : prog A) (w : world) :
  calls env l p ->
  dispatches (trace (snd (run env p w))) = (dispatches (trace w) ++ l)%list.
Proof.
  revert l w; induction p as [a|e|lv args k IH|rq k IH|b s k IH|f k IH];
    simpl; intros l w Hp.
  - subst l. now rewrite app_nil_r.
  - subst l. now rewrite app_nil_r.
  - rewrite (IH l _ Hp). simpl. rewrite dispatches_app. simpl.
    now rewrite app_nil_r.
  - destruct l as [|rq' l']; [contradiction|]. destruct Hp as [<- Hk].
    rewrite (IH _ l' _ (Hk _)). simpl. rewrite dispatches_app. simpl.
    now rewrite <- app_assoc.
  - rewrite (IH _ l _ (Hp _)). simpl. rewrite dispatches_app. simpl.
    now rewrite app_nil_r.
  - rewrite (IH _ l _ (Hp _)). simpl. rewrite dispatches_app. simpl.
    now rewrite app_nil_r.
Qed.

Lemma calls_at_most_mono {A : Type} (n m : nat) (p : prog A) :
  (n <= m)%nat -> calls_at_most n p -> calls_at_most m p.
Proof.
  revert n m; induction p as [a|e|lv args k IH|rq k IH|b s k IH|f k IH];
    simpl; intros n m Hle Hp; eauto.
  destruct n as [|n]; [contradiction|].
  destruct m as [|m]; [lia|].
  intros r. apply (IH r n m); [lia | apply Hp].
Qed.

Lemma calls_at_most_bind {A B : Type} (n : nat) (p : prog A) (f : A -> prog B) :
  calls_at_most 0 p -> (forall a, calls_at_most n (f a)) ->
  calls_at_most n (bind p f).
Proof. induction p; simpl; intros Hp Hf; auto; contradiction. Qed.

Lemma calls_at_most_then {A B : Type} (n : nat) (p : prog A) (f : A -> prog B) :
  calls_at_most n p -> (forall a, calls_at_most 0 (f a)) ->
  calls_at_most n (bind p f).
Proof.
  revert n; induction p as [a|e|lv args k IH|rq k IH|b s k IH|g k IH];
    simpl; intros n Hp Hf; auto.
  - apply (calls_at_most_mono 0 n); [lia | apply Hf].
  - destruct n as [|n]; [contradiction|]. intros r. now apply IH.
Qed.

Lemma calls_at_most_try_catch {A : Type} (n : nat) (p : prog A)
    (h : error -> prog A) :
  calls_at_most n p -> (forall e, calls_at_most 0 (h e)) ->
  calls_at_most n (try_catch p h).
Proof.
  revert n; induction p as [a|e|lv args k IH|rq k IH|b s k IH|f k IH];
    simpl; intros n Hp Hh; auto.
  - apply (calls_at_most_mono 0 n); [lia | apply Hh].
  - destruct n as [|n]; [contradiction|]. intros r. now apply IH.
Qed.

Lemma run_calls_at_most {A : Type} (env : environment) (n : nat) (p : prog A)
    (w : world) :
  calls_at_most n p ->
  (length (dispatches (trace (snd (run env p w))))
   <= length (dispatches (trace w)) + n)%nat.
Proof.
  revert n w; induction p as [a|e|lv args k IH|rq k IH|b s k IH|f k IH];
    simpl; intros n w Hp; try lia.
  - specialize (IH n (record (ELog lv args) w) Hp).
    simpl in IH. rewrite dispatches_app in IH. simpl in IH.
    now rewrite app_nil_r in IH.
  - destruct n as [|n]; [contradiction|].
    specialize (IH (net env (trace w) rq) n
                  (record (EFetch rq (net env (trace w) rq)) w) (Hp _)).
    simpl in IH. rewrite dispatches_app, length_app in IH. simpl in IH. lia.
  - specialize (IH (constructEvent env (trace w) b s) n
                  (record (EConstruct b s (constructEvent env (trace w) b s)) w)
                  (Hp _)).
    simpl in IH. rewrite dispatches_app in IH. simpl in IH.
    now rewrite app_nil_r in IH.
  - match goal with |- context [run env _ ?w'] =>
      specialize (IH (db env (trace w)) n w' (Hp _)) end.
    simpl in IH. rewrite dispatches_app in IH. simpl in IH.
    now rewrite app_nil_r in IH.
Qed.

Lemma calls_at_most_lift {A : Type} (n : nat) (r : error + A) :
  calls_at_most n (lift r).
Proof. now destruct r. Qed.

(** Walks down a tree, counting the calls on every path. *)
Ltac count :=
  repeat first
    [ exact I
    | progress intros
    | apply calls_at_most_lift
    | apply calls_at_most_try_catch
    | apply calls_at_most_bind; [solve [count] |]
    | progress cbn [calls_at_most bind try_catch lift log fetch stripe_constructEvent]
    | match goal with
      | |- context [if ?b then _ else _] => destruct b
      | |- context [match ?r with inl _ => _ | inr _ => _ end] => destruct r
      end ].

Section Calls.

Variable AUTH_SERVICE_URL : option string.

Lemma stripe_cases_call_at_most_once :
  Forall (fun c => forall v, calls_at_most 1 (snd c v)) (stripe_cases AUTH_SERVICE_URL).
Proof.
  unfold stripe_cases.
  repeat (apply Forall_cons; [intros v; cbn [snd] |]); try apply Forall_nil.
  all: unfold handlePaymentIntentSucceeded, handlePaymentIntentFailed,
         handleInvoicePaymentSucceeded, handleInvoicePaymentFailed,
         handleCheckoutSessionCompleted, handleSubscriptionCreated,
         handleSubscriptionUpdated, handleSubscriptionDeleted,
         handleSubscriptionTrialWillEnd, metadata_field, patch_user_plan, fetch;
       count.
Qed.

Lemma stripe_route_calls_at_most_once (req : request) :
  calls_at_most 1 (stripe_route AUTH_SERVICE_URL req).
Proof.
  unfold stripe_route.
  apply calls_at_most_try_catch; [|count].
  destruct (header "stripe-signature" (headers req)) as [[|c s]|]; [count| |count].
  apply calls_at_most_bind.
  { unfold verifyWebhookSignature, stripe_constructEvent. count. }
  intros [rejected|ev]; [count|].
  apply calls_at_most_bind; [count|intros type].
  apply calls_at_most_bind; [count|intros shown].
  apply calls_at_most_bind; [count|intros []].
  destruct (select type (stripe_cases AUTH_SERVICE_URL)) as [handler|] eqn:Hsel; [|count].
  assert (forall v, calls_at_most 1 (handler v)) as Hh
    by exact (select_Forall (fun h => forall v, calls_at_most 1 (h v)) _ _ _
                stripe_cases_call_at_most_once Hsel).
  destruct (event_object ev) as [e|object]; [count|].
  cbn [lift bind]. apply calls_at_most_then; [apply Hh | count].
Qed.

(** X5: one delivery to the Stripe route calls the authentication service
    at most once, whatever the request, the SDK and the network do. *)
Theorem X5_at_most_one_call_per_delivery (env : environment) (req : request)
    (w : world) :
  (length (dispatches (trace (snd (deliver (stripe_route AUTH_SERVICE_URL) env req w))))
   <= length (dispatches (trace w)) + 1)%nat.
Proof.
  unfold deliver. apply run_calls_at_most, stripe_route_calls_at_most_once.
Qed.

End Calls.

Lemma calls_lift {A : Type} (env : environment) (r : error + A) :
  calls env [] (lift r).
Proof. now destruct r. Qed.

Lemma calls_bind {A B : Type} (env : environment) (l : list http_request)
    (p : prog A) (f : A -> prog B) :
  calls env [] p -> never_throws p -> (forall a, calls env l (f a)) ->
  calls env l (bind p f).
Proof.
  induction p as [a|e|lv args k IH|rq k IH|b s k IH|g k IH];
    simpl; intros Hp Hnt Hf; auto; contradiction.
Qed.

Lemma calls_then {A B : Type} (env : environment) (l : list http_request)
    (p : prog A) (f : A -> prog B) :
  calls env l p -> (forall a, calls env [] (f a)) -> calls env l (bind p f).
Proof.
  revert l; induction p as [a|e|lv args k IH|rq k IH|b s k IH|g k IH];
    simpl; intros l Hp Hf; auto.
  - subst l. apply Hf.
  - destruct l as [|rq' l']; [contradiction|]. destruct Hp as [<- Hk].
    split; [reflexivity|]. intros r. now apply IH.
Qed.

Lemma calls_try_catch {A : Type} (env : environment) (l : list http_request)
    (p : prog A) (h : error -> prog A) :
  calls env l p -> (forall e, calls env [] (h e)) -> calls env l (try_catch p h).
Proof.
  revert l; induction p as [a|e|lv args k IH|rq k IH|b s k IH|g k IH];
    simpl; intros l Hp Hh; auto.
  - subst l. apply Hh.
  - destruct l as [|rq' l']; [contradiction|]. destruct Hp as [<- Hk].
    split; [reflexivity|]. intros r. now apply IH.
Qed.

Lemma log_only_calls {A : Type} (env : environment) (p : prog A) :
  log_only p -> calls env [] p.
Proof.
  induction p as [a|e|lv args k IH|rq k IH|b s k IH|g k IH]; simpl; intros Hp;
    auto; contradiction.
Qed.

Lemma truthy_js_and (a b : value) : truthy (js_and a b) = truthy a && truthy b.
Proof. unfold js_and. now destruct (truthy a) eqn:Ha. Qed.

(** Whatever can be read at one key can be read at any other. *)
Lemma get_readable (v x : value) (k k' : string) :
  get v k = inr x -> exists y, get v k' = inr y.
Proof. destruct v; simpl; intros H; try discriminate; eauto. Qed.

(** A truthy value has properties to read. *)
Lemma get_truthy (m : value) (k : string) :
  truthy m = true -> exists y, get m k = inr y.
Proof. destruct m; simpl; intros H; try discriminate; eauto. Qed.

Lemma select_string (type : value) (cases : list (string * (value -> prog unit)))
    (h : value -> prog unit) :
  select type cases = Some h -> exists t, type = VStr t.
Proof.
  induction cases as [|[label h'] rest IH]; simpl; [discriminate|].
  destruct type; eauto.
Qed.

Section Propagation.

Variable AUTH_SERVICE_URL : option string.

Lemma patch_user_plan_calls (env : environment) (userId planId : value) :
  calls env
    match toStr userId with
    | inr user => [plan_update AUTH_SERVICE_URL user planId]
    | inl _ => []
    end
    (patch_user_plan AUTH_SERVICE_URL userId planId).
Proof.
  unfold patch_user_plan, fetch, plan_update.
  destruct (toStr userId) as [e|user]; cbn [lift bind try_catch log calls];
    [reflexivity|].
  split; [reflexivity|].
  intros [e|response]; cbn [lift bind try_catch log calls]; [reflexivity|].
  destruct (text response); cbn [lift bind try_catch log calls]; [reflexivity|].
  destruct (negb (ok response)); [reflexivity|].
  now destruct (toStr planId).
Qed.

(** The handlers of the other six event types only log. *)
Lemma plain_handler_log_only (t : string) (h : value -> prog unit) :
  select (VStr t) (stripe_cases AUTH_SERVICE_URL) = Some h ->
  ~ In t propagating ->
  forall v, log_only (h v).
Proof.
  intros Hsel Hnot v. cbn [select stripe_cases] in Hsel.
  repeat match type of Hsel with
         | (if (t =? ?label)%string then _ else _) = _ =>
             destruct (String.eqb_spec t label) as [->|_]
         end;
    try discriminate;
    try (exfalso; apply Hnot; simpl; tauto);
    injection Hsel as <-;
    unfold handlePaymentIntentSucceeded, handlePaymentIntentFailed,
      handleInvoicePaymentSucceeded, handleInvoicePaymentFailed,
      handleSubscriptionDeleted, handleSubscriptionTrialWillEnd; walk.
Qed.

(** The tail the three propagating handlers share: the test of
    [userId && planId] and the block it guards. *)
Lemma plan_block_calls (env : environment) (userId planId : value)
    (warning : string) (h : error -> prog unit) :
  (forall e, calls env [] (h e)) ->
  calls env
    match toStr userId with
    | inr user =>
        if truthy userId && truthy planId
        then [plan_update AUTH_SERVICE_URL user planId]
        else []
    | inl _ => []
    end
    (try_catch
       (if truthy (js_and userId planId)
        then patch_user_plan AUTH_SERVICE_URL userId planId
        else log Warn [AStr warning])
       h).
Proof.
  intros Hh. rewrite truthy_js_and.
  destruct (truthy userId && truthy planId).
  - apply calls_try_catch; [apply patch_user_plan_calls | exact Hh].
  - cbn [log try_catch calls]. now destruct (toStr userId).
Qed.

(** The handlers of the three propagating types make the calls that the
    object's metadata asks for. *)
Lemma propagating_handler_calls (env : environment) (t : string)
    (h : value -> prog unit) (object : value) :
  In t propagating ->
  select (VStr t) (stripe_cases AUTH_SERVICE_URL) = Some h ->
  calls env (plan_calls AUTH_SERVICE_URL t object) (h object).
Proof.
  intros Hin Hsel.
  unfold plan_calls, plan_of, announced, printable.
  simpl in Hin. destruct Hin as [<-|[<-|[<-|[]]]];
    cbn in Hsel; injection Hsel as <-;
    cbn [String.eqb Ascii.eqb Bool.eqb];
    unfold handleCheckoutSessionCompleted, handleSubscriptionCreated,
      handleSubscriptionUpdated, metadata_field.
  - destruct (get object "metadata") as [e|m] eqn:Hmeta.
    + assert (exists e', get object "id" = inl e') as [e' ->]
        by (destruct object; try discriminate; simpl; eauto).
      reflexivity.
    + destruct (get_readable _ _ _ "id" Hmeta) as [id ->].
      cbn [lift bind try_catch log calls].
      assert (Hquiet : forall userId planId : value,
                match toStr userId with
                | inr user =>
                    if truthy userId && truthy planId && false
                    then [plan_update AUTH_SERVICE_URL user planId]
                    else []
                | inl _ => []
                end = []).
      { intros userId planId. destruct (toStr userId); [reflexivity|].
        now rewrite andb_false_r. }
      destruct (truthy m) eqn:Hm.
      * destruct (get_truthy m "userId" Hm) as [userId ->].
        destruct (get_truthy m "planId" Hm) as [planId ->].
        destruct (toStr id) as [e|shown];
          cbn [lift bind try_catch log calls andb]; [now rewrite Hquiet|].
        destruct (toStr userId) as [e|user] eqn:Huser;
          cbn [lift bind try_catch log calls]; [reflexivity|].
        destruct (toStr planId) as [e|plan] eqn:Hplan;
          cbn [lift bind try_catch log calls]; [now rewrite andb_false_r|].
        rewrite andb_true_r.
        pose proof (plan_block_calls env userId planId
                      "userId or planId missing in session metadata."
                      (fun error => log Err [AStr "Error handling checkout session completed:";
                                             AErr error])
                      (fun _ => eq_refl)) as Hblock.
        now rewrite Huser in Hblock.
      * destruct (toStr id) as [e|shown];
          cbn [lift bind try_catch log calls andb]; [now rewrite Hquiet|].
        destruct (toStr m) as [e|shown'] eqn:Hshown;
          cbn [lift bind try_catch log calls]; [reflexivity|].
        rewrite truthy_js_and, Hm. reflexivity.
  - cbn [lift bind try_catch log calls].
    destruct (get object "metadata") as [e|m] eqn:Hmeta; [reflexivity|].
    cbn [lift bind try_catch log calls].
    destruct (truthy m) eqn:Hm.
    + destruct (get_truthy m "userId" Hm) as [userId ->].
      destruct (get_truthy m "planId" Hm) as [planId ->].
      cbn [lift bind try_catch log calls].
      pose proof (plan_block_calls env userId planId
                    "userId or planId missing in subscription metadata."
                    (fun error => log Err [AStr "Error handling subscription created:";
                                           AErr error])
                    (fun _ => eq_refl)) as Hblock.
      destruct (toStr userId); [exact Hblock|].
      now rewrite andb_true_r.
    + cbn [lift bind try_catch log calls].
      rewrite truthy_js_and, Hm. now destruct (toStr m).
  - cbn [lift bind try_catch log calls].
    destruct (get object "metadata") as [e|m] eqn:Hmeta; [reflexivity|].
    cbn [lift bind try_catch log calls].
    destruct (truthy m) eqn:Hm.
    + destruct (get_truthy m "userId" Hm) as [userId ->].
      destruct (get_truthy m "planId" Hm) as [planId ->].
      cbn [lift bind try_catch log calls].
      pose proof (plan_block_calls env userId planId
                    "userId or planId missing in subscription metadata."
                    (fun error => log Err [AStr "Error handling subscription updated:";
                                           AErr error])
                    (fun _ => eq_refl)) as Hblock.
      destruct (toStr userId); [exact Hblock|].
      now rewrite andb_true_r.
    + cbn [lift bind try_catch log calls].
      rewrite truthy_js_and, Hm. now destruct (toStr m).
Qed.

(** X6: for a verified event of one of the three propagating types whose
    [data.object] can be read, the delivery makes exactly the calls
    [plan_calls] reads off the object: one
    [PATCH <AUTH_SERVICE_URL>/auth/users/<userId>/plan] with body
    [{planId}] when [metadata.userId] and [metadata.planId] are both truthy
    and everything the handler renders before it calls can be rendered -
    [userId] in the URL and, in the checkout handler's log lines, the
    session's [id] and [planId] -, and none otherwise. *)
Theorem X6_propagating_event_calls (env : environment) (req : request)
    (w : world) (signature t : string) (ev object : value) :
  header "stripe-signature" (headers req) = Some signature ->
  signature <> "" ->
  constructEvent env (trace w) (body req) signature = inr ev ->
  get ev "type" = inr (VStr t) ->
  In t propagating ->
  event_object ev = inr object ->
  dispatches (trace (snd (deliver (stripe_route AUTH_SERVICE_URL) env req w)))
  = (dispatches (trace w) ++ plan_calls AUTH_SERVICE_URL t object)%list.
Proof.
  intros Hhdr Hsig Hsdk Htype Hin Hobj. unfold deliver.
  rewrite (stripe_route_verified AUTH_SERVICE_URL env req w signature ev (VStr t)
             t Hhdr Hsig Hsdk Htype eq_refl).
  assert (In t (map fst (stripe_cases AUTH_SERVICE_URL))) as Hlabel
    by (simpl in Hin |- *; tauto).
  destruct (select_listed _ _ Hlabel) as [handler Hsel].
  rewrite Hsel, Hobj. cbn [snd].
  rewrite (run_calls env _ _ _ (propagating_handler_calls env t handler object Hin Hsel)).
  cbn [extend trace]. rewrite dispatches_app. cbn [verified_prefix dispatches].
  now rewrite app_nil_r.
Qed.

(** X7: a delivery to the Stripe route calls the authentication service
    only for a request whose signature the SDK accepted and whose event is
    of one of the three propagating types.  No other event - a payment
    intent, an invoice, a deleted subscription, a trial about to end -
    reaches the authentication service. *)
Theorem X7_calls_only_for_propagating_events (env : environment) (req : request)
    (w : world) :
  dispatches (trace (snd (deliver (stripe_route AUTH_SERVICE_URL) env req w)))
    <> dispatches (trace w) ->
  exists signature ev t,
    header "stripe-signature" (headers req) = Some signature
    /\ constructEvent env (trace w) (body req) signature = inr ev
    /\ get ev "type" = inr (VStr t)
    /\ In t propagating.
Proof.
  unfold deliver. intros Hcalls.
  assert (Hquiet : forall es, dispatches es = [] ->
            dispatches (trace (extend w es)) = dispatches (trace w)).
  { intros es Hes. cbn [extend trace]. rewrite dispatches_app, Hes.
    now rewrite app_nil_r. }
  destruct (header "stripe-signature" (headers req)) as [signature|] eqn:Hhdr.
  2: { exfalso. apply Hcalls. unfold stripe_route. rewrite Hhdr. cbn.
       rewrite dispatches_app. cbn. now rewrite app_nil_r. }
  destruct signature as [|c s].
  { exfalso. apply Hcalls. unfold stripe_route. rewrite Hhdr. cbn.
    rewrite dispatches_app. cbn. now rewrite app_nil_r. }
  assert (Hsig : String c s <> "") by discriminate.
  remember (String c s) as signature eqn:Hshape. clear Hshape.
  destruct (constructEvent env (trace w) (body req) signature) as [e|ev] eqn:Hsdk.
  { exfalso. apply Hcalls.
    rewrite (stripe_route_invalid_signature AUTH_SERVICE_URL env req w
               signature e Hhdr Hsig Hsdk).
    now apply Hquiet. }
  destruct (get ev "type") as [e|type] eqn:Htype.
  { exfalso. apply Hcalls.
    rewrite (stripe_route_type_unreadable AUTH_SERVICE_URL env req w
               signature ev e Hhdr Hsig Hsdk Htype).
    now apply Hquiet. }
  destruct (toStr type) as [e|shown] eqn:Hshown.
  { exfalso. apply Hcalls.
    rewrite (stripe_route_type_unprintable AUTH_SERVICE_URL env req w
               signature ev type e Hhdr Hsig Hsdk Htype Hshown).
    now apply Hquiet. }
  rewrite (stripe_route_verified AUTH_SERVICE_URL env req w signature ev type
             shown Hhdr Hsig Hsdk Htype Hshown) in Hcalls.
  destruct (select type (stripe_cases AUTH_SERVICE_URL)) as [handler|] eqn:Hsel.
  2: { exfalso. apply Hcalls. now apply Hquiet. }
  destruct (select_string _ _ _ Hsel) as [t ->].
  destruct (in_dec string_dec t propagating) as [Hin|Hnot].
  { now exists signature, ev, t. }
  exfalso. apply Hcalls.
  destruct (event_object ev) as [e|object]; [now apply Hquiet|].
  cbn [snd].
  rewrite (run_calls env [] _ _
             (log_only_calls env _ (plain_handler_log_only t handler Hsel Hnot object))).
  rewrite app_nil_r. now apply Hquiet.
Qed.

(** X8: a redelivered event makes its calls again.  When the SDK accepts
    the same request on the first delivery and on the retry, the
    authentication service receives the event's plan update twice. *)
Theorem X8_redelivery_repeats_the_call (env env' : environment) (req : request)
    (w : world) (signature t : string) (ev object : value) :
  let once := snd (deliver (stripe_route AUTH_SERVICE_URL) env req w) in
  let twice := snd (deliver (stripe_route AUTH_SERVICE_URL) env' req once) in
  header "stripe-signature" (headers req) = Some signature ->
  signature <> "" ->
  constructEvent env (trace w) (body req) signature = inr ev ->
  constructEvent env' (trace once) (body req) signature = inr ev ->
  get ev "type" = inr (VStr t) ->
  In t propagating ->
  event_object ev = inr object ->
  dispatches (trace twice)
  = (dispatches (trace w) ++ plan_calls AUTH_SERVICE_URL t object
       ++ plan_calls AUTH_SERVICE_URL t object)%list.
Proof.
  intros once twice Hhdr Hsig Hsdk Hsdk' Htype Hin Hobj.
  assert (In t (map fst (stripe_cases AUTH_SERVICE_URL))) as Hlabel
    by (simpl in Hin |- *; tauto).
  destruct (select_listed _ _ Hlabel) as [handler Hsel].
  assert (Hone : forall e0 w0,
             constructEvent e0 (trace w0) (body req) signature = inr ev ->
             dispatches (trace (snd (deliver (stripe_route AUTH_SERVICE_URL) e0 req w0)))
             = (dispatches (trace w0) ++ plan_calls AUTH_SERVICE_URL t object)%list).
  { intros e0 w0 Hsdk0. unfold deliver.
    rewrite (stripe_route_verified AUTH_SERVICE_URL e0 req w0 signature ev (VStr t)
               t Hhdr Hsig Hsdk0 Htype eq_refl).
    rewrite Hsel, Hobj. cbn [snd].
    rewrite (run_calls e0 _ _ _
               (propagating_handler_calls e0 t handler object Hin Hsel)).
    cbn [extend trace]. rewrite dispatches_app. cbn [verified_prefix dispatches].
    now rewrite app_nil_r. }
  subst twice. rewrite (Hone env' once Hsdk').
  subst once. rewrite (Hone env w Hsdk).
  now rewrite <- app_assoc.
Qed.

End Propagation.

(** ** Concurrent deliveries and the authentication service *)

Lemma dispatches_record (e : event) (w : world) :
  dispatches (trace (record e w))
  = (dispatches (trace w)
     ++ match e with EFetch rq _ => [rq] | _ => [] end)%list.
Proof. cbn [record trace]. rewrite dispatches_app. now destruct e. Qed.

(** One effect of a tree adds to the calls made what it takes from the calls
    still to make. *)
Lemma calls_step {A : Type} (env : environment) (p p' : prog A) (w w' : world)
    (l : list http_request) :
  step env p w = Some (p', w') ->
  calls env l p ->
  exists c l',
    l = (c ++ l')%list
    /\ calls env l' p'
    /\ dispatches (trace w') = (dispatches (trace w) ++ c)%list.
Proof.
  destruct p as [a|e|lv args k|rq k|b s k|f k]; simpl; intros Hstep Hp;
    try discriminate; injection Hstep as <- <-.
  - exists [], l. rewrite dispatches_record. auto.
  - destruct l as [|rq' l']; [contradiction|]. destruct Hp as [<- Hk].
    exists [rq], l'. rewrite dispatches_record. auto.
  - exists [], l. rewrite dispatches_record. auto.
  - exists [], l. cbn [trace]. rewrite dispatches_app. auto.
Qed.

(** However two trees are interleaved, the authentication service receives
    the calls of both. *)
Lemma interleave_calls {A B : Type} (env : environment) (p : prog A) :
  forall (q : prog B) (l1 l2 : list http_request),
    calls env l1 p -> calls env l2 q ->
    forall (sched : list bool) (w : world),
    exists m,
      dispatches (trace (snd (interleave env p q sched w)))
      = (dispatches (trace w) ++ m)%list
      /\ Permutation m (l1 ++ l2).
Proof.
  assert (Hleft : forall (p p' : prog A) (q : prog B) l1 l2 sched w w',
             step env p w = Some (p', w') -> finished q = None ->
             hd true sched = true -> calls env l1 p ->
             (forall l1', calls env l1' p' ->
                exists m, dispatches (trace (snd (interleave env p' q (tl sched) w')))
                          = (dispatches (trace w') ++ m)%list
                          /\ Permutation m (l1' ++ l2)) ->
             exists m, dispatches (trace (snd (interleave env p q sched w)))
                       = (dispatches (trace w) ++ m)%list
                       /\ Permutation m (l1 ++ l2)).
  { intros p0 p' q l1 l2 sched w w' Hstep Hq Hhd Hp IH.
    rewrite (interleave_step_l env p0 p' q sched w w' Hstep Hq Hhd).
    destruct (calls_step env p0 p' w w' l1 Hstep Hp) as (c & l1' & -> & Hp' & Hw').
    destruct (IH l1' Hp') as (m & -> & Hperm).
    exists (c ++ m)%list. rewrite Hw', <- !app_assoc. split; [reflexivity|].
    now apply Permutation_app_head. }
  assert (Hright : forall (p : prog A) (q q' : prog B) l1 l2 rest w w',
             step env q w = Some (q', w') -> finished p = None ->
             calls env l2 q ->
             (forall l2', calls env l2' q' ->
                exists m, dispatches (trace (snd (interleave env p q' rest w')))
                          = (dispatches (trace w') ++ m)%list
                          /\ Permutation m (l1 ++ l2')) ->
             exists m, dispatches (trace (snd (interleave env p q (false :: rest) w)))
                       = (dispatches (trace w) ++ m)%list
                       /\ Permutation m (l1 ++ l2)).
  { intros p0 q q' l1 l2 rest w w' Hstep Hp Hq IH.
    rewrite (interleave_step_r env p0 q q' rest w w' Hstep Hp).
    destruct (calls_step env q q' w w' l2 Hstep Hq) as (c & l2' & -> & Hq' & Hw').
    destruct (IH l2' Hq') as (m & -> & Hperm).
    exists (c ++ m)%list. rewrite Hw', <- !app_assoc. split; [reflexivity|].
    rewrite Hperm.
    rewrite !app_assoc. apply Permutation_app_tail, Permutation_app_comm. }
  induction p as [a|e|l args k IHp|x k IHp|b s k IHp|f k IHp];
    intros q l1 l2 Hp Hq.
  1, 2: intros sched w; one_side_finished; cbn [snd];
        exists l2; simpl in Hp; subst l1; split;
        [now apply run_calls | reflexivity].
  all: revert l2 Hq;
       induction q as [a'|e'|l' args' k' IHq|x' k' IHq|b' s' k' IHq|f' k' IHq];
       intros l2 Hq sched w.
  all: try (one_side_finished; cbn [snd];
            exists l1; simpl in Hq; subst l2; split;
            [now apply run_calls | now rewrite app_nil_r]).
  all: destruct (hd true sched) eqn:Hhd;
       [ eapply Hleft; [reflexivity | reflexivity | exact Hhd | exact Hp |];
         intros l1' Hp'; now apply IHp
       | destruct sched as [|[] rest]; try discriminate;
         eapply Hright; [reflexivity | reflexivity | exact Hq |];
         intros l2' Hq'; now apply IHq ].
Qed.

Section Concurrent.

Variable AUTH_SERVICE_URL : option string.

(** The Stripe route as a whole, when the SDK accepts the request whenever
    it is asked. *)
Lemma stripe_route_calls (env : environment) (req : request)
    (signature t : string) (ev object : value) :
  header "stripe-signature" (headers req) = Some signature ->
  signature <> "" ->
  (forall history, constructEvent env history (body req) signature = inr ev) ->
  get ev "type" = inr (VStr t) ->
  In t propagating ->
  event_object ev = inr object ->
  calls env (plan_calls AUTH_SERVICE_URL t object) (stripe_route AUTH_SERVICE_URL req).
Proof.
  intros Hhdr Hsig Hsdk Htype Hin Hobj.
  assert (In t (map fst (stripe_cases AUTH_SERVICE_URL))) as Hlabel
    by (simpl in Hin |- *; tauto).
  destruct (select_listed _ _ Hlabel) as [handler Hsel].
  unfold stripe_route. rewrite Hhdr.
  destruct signature as [|c s]; [congruence|].
  unfold verifyWebhookSignature, stripe_constructEvent.
  cbn [bind try_catch calls]. intros history. rewrite Hsdk.
  cbn [lift bind try_catch calls]. rewrite Htype.
  cbn [toStr lift bind try_catch log calls]. rewrite Hsel, Hobj.
  cbn [lift bind].
  apply calls_try_catch; [|reflexivity].
  apply calls_then; [|reflexivity].
  now apply propagating_handler_calls with (t := t).
Qed.

(** X9: two concurrent deliveries of one propagating event both reach the
    authentication service.  However the two are interleaved, if the SDK
    accepts the request whenever it is asked, the calls made are those of
    the event taken twice: a duplicate delivery is not recognised, and the
    plan update is sent once per delivery. *)
Theorem X9_concurrent_deliveries_both_call (env : environment) (req : request)
    (sched : list bool) (w : world) (signature t : string) (ev object : value) :
  header "stripe-signature" (headers req) = Some signature ->
  signature <> "" ->
  (forall history, constructEvent env history (body req) signature = inr ev) ->
  get ev "type" = inr (VStr t) ->
  In t propagating ->
  event_object ev = inr object ->
  dispatches
    (trace (snd (interleave env (stripe_route AUTH_SERVICE_URL req)
                   (stripe_route AUTH_SERVICE_URL req) sched w)))
  = (dispatches (trace w) ++ plan_calls AUTH_SERVICE_URL t object
       ++ plan_calls AUTH_SERVICE_URL t object)%list.
Proof.
  intros Hhdr Hsig Hsdk Htype Hin Hobj.
  pose proof (stripe_route_calls env req signature t ev object
                Hhdr Hsig Hsdk Htype Hin Hobj) as Hcalls.
  destruct (interleave_calls env _ _ _ _ Hcalls Hcalls sched w) as (m & -> & Hperm).
  f_equal.
  unfold plan_calls in *. destruct (plan_of object) as [[userId planId]|].
  - destruct (toStr userId) as [e|user].
    + now apply Permutation_nil, Permutation_sym.
    + destruct (truthy userId && truthy planId && announced t object planId).
      * cbn [app] in *.
        now destruct (Permutation_length_2_inv (Permutation_sym Hperm)) as [-> | ->].
      * now apply Permutation_nil, Permutation_sym.
  - now apply Permutation_nil, Permutation_sym.
Qed.

End Concurrent.

(** ** The test webhook *)

(** X10: the test webhook refuses a body in which [userId] or [planId] is
    missing or falsy with 400 [{error: 'userId and planId are required'}];
    it then logs nothing and calls nobody. *)
Theorem X10_test_route_requires_both (AUTH_SERVICE_URL : option string) (env : environment)
    (req : request) (w : world) (userId planId : value) :
  destructure (body req) "userId" = inr userId ->
  destructure (body req) "planId" = inr planId ->
  truthy userId && truthy planId = false ->
  deliver (test_route AUTH_SERVICE_URL) env req w
  = (inr (mkResponse 400 (VObj [("error", VStr "userId and planId are required")])), w).
Proof.
  intros Hu Hp Hfalsy. unfold deliver, test_route.
  rewrite Hu, Hp. cbn [lift bind].
  replace (negb (truthy userId) || negb (truthy planId)) with true
    by (destruct (truthy userId), (truthy planId); simpl in *; congruence).
  reflexivity.
Qed.

(** X11: for a body whose [userId] and [planId] are truthy and can be
    rendered in the log line and the URL, the test webhook makes exactly one
    call, the very plan update the webhook handlers send, and reports its
    outcome: 200 when the update was delivered, 500 when the call threw, its
    body could not be read, or the status was not a 2xx. *)
Theorem X11_test_route_reports_delivery (AUTH_SERVICE_URL : option string)
    (env : environment) (req : request) (w : world) (userId planId : value)
    (user plan : string) :
  destructure (body req) "userId" = inr userId ->
  destructure (body req) "planId" = inr planId ->
  truthy userId = true ->
  truthy planId = true ->
  toStr userId = inr user ->
  toStr planId = inr plan ->
  let rq := plan_update AUTH_SERVICE_URL user planId in
  let answer := net env (trace w ++ [test_announcement user plan]) rq in
  exists r,
    fst (deliver (test_route AUTH_SERVICE_URL) env req w) = inr r
    /\ status r = (if delivered answer then 200 else 500)
    /\ dispatches (trace (snd (deliver (test_route AUTH_SERVICE_URL) env req w)))
       = (dispatches (trace w) ++ [rq])%list.
Proof.
  intros Hu Hp Htu Htp Huser Hplan rq answer. subst rq answer.
  unfold deliver, test_route, fetch, plan_update, test_announcement, delivered.
  rewrite Hu, Hp. cbn [lift bind]. rewrite Htu, Htp, Huser, Hplan.
  cbn [negb orb lift bind try_catch log run record trace].
  destruct (net env _ _) as [e|response];
    cbn [lift bind try_catch log run record trace entities fst snd].
  - eexists. split; [reflexivity|]. split; [reflexivity|].
    rewrite !dispatches_app. cbn. now rewrite !app_nil_r.
  - destruct (text response) as [e|responseBody];
      cbn [lift bind try_catch log run record trace entities fst snd].
    + eexists. split; [reflexivity|]. split; [reflexivity|].
      rewrite !dispatches_app. cbn. now rewrite !app_nil_r.
    + destruct (ok response);
        cbn [negb lift bind try_catch log run record trace entities fst snd].
      * eexists. split; [reflexivity|]. split; [reflexivity|].
        rewrite !dispatches_app. cbn. now rewrite !app_nil_r.
      * eexists. split; [reflexivity|]. split; [reflexivity|].
        rewrite !dispatches_app. cbn. now rewrite !app_nil_r.
Qed.


(** ** The authentication middleware *)

Lemma substring_whole (s : string) : String.substring 0 (String.length s) s = s.
Proof. induction s as [|c s IH]; simpl; [reflexivity | now rewrite IH]. Qed.

(** A header that starts with ['Bearer '] is that prefix followed by what
    [substring(7)] returns. *)
Lemma bearer_token (authHeader : string) :
  String.prefix "Bearer " authHeader = true ->
  authHeader
  = "Bearer " ++ String.substring 7 (String.length authHeader - 7) authHeader.
Proof.
  intros H.
  do 7 (destruct authHeader as [|? authHeader]; [discriminate H|];
        simpl in H;
        match type of H with
        | (if ?d then _ else _) = true => destruct d as [<-|]; [|discriminate H]
        end).
  simpl. now rewrite Nat.sub_0_r, substring_whole.
Qed.

(** Induction on a value that reaches into the items of an array. *)
Lemma value_items_ind (P : value -> Prop) :
  P VUndefined -> P VNull ->
  (forall b, P (VBool b)) -> (forall repr, P (VNum repr)) -> (forall s, P (VStr s)) ->
  (forall items, Forall P items -> P (VArr items)) ->
  (forall fields, P (VObj fields)) ->
  forall v, P v.
Proof.
  intros Hu Hn Hb Hnum Hs Ha Ho.
  exact (fix go (v : value) : P v :=
           match v with
           | VUndefined => Hu
           | VNull => Hn
           | VBool b => Hb b
           | VNum repr => Hnum repr
           | VStr s => Hs s
           | VArr items =>
               Ha items
                 ((fix all (l : list value) : Forall P l :=
                     match l with
                     | [] => Forall_nil P
                     | x :: rest => Forall_cons x (go x) (all rest)
                     end) items)
           | VObj fields => Ho fields
           end).
Qed.

(** What a template literal throws is always the same [TypeError]. *)
Lemma toStr_throws (v : value) (e : error) :
  toStr v = inl e -> e = unprintable.
Proof.
  revert e. induction v as [| |[]| | |items IH|fields] using value_items_ind;
    intros e H; try discriminate H.
  - simpl in H. induction IH as [|x rest Hx _ IHrest]; [discriminate H|].
    destruct (match x with
              | VUndefined | VNull => inr ""%string
              | _ => toStr x
              end) as [e'|shown] eqn:Hhead.
    + injection H as <-.
      destruct x; try discriminate Hhead; exact (Hx _ Hhead).
    + destruct rest as [|y rest]; [discriminate H|].
      apply IHrest.
      match type of H with
      | match ?j with inl _ => _ | inr _ => _ end = _ =>
          destruct j as [e''|t] eqn:Hj; [now injection H as <- | discriminate H]
      end.
  - simpl in H.
    destruct (lookup "toString" fields); [now injection H as <-|discriminate H].
Qed.

Section AuthProperties.

Variable jwt_verify : string -> error + value.

(** X12: [next()] is reached only with a verified token.  When the
    middleware hands the request on, the [authorization] header was
    ['Bearer '] followed by a non-empty token, [jwt.verify] accepted exactly
    that token, [req.user] carries the [id], [email] and [username] of the
    decoded payload and nothing else, and one line was logged, with the
    [email] rendered in it. *)
Theorem X12_next_only_with_verified_token (env : environment) (req : request)
    (w w' : world) (user : value) :
  run env (authMiddleware jwt_verify req) w = (inr (Next user), w') ->
  exists token decoded id email username shown,
    header "authorization" (headers req) = Some ("Bearer " ++ token)
    /\ token <> ""
    /\ jwt_verify token = inr decoded
    /\ get decoded "id" = inr id
    /\ get decoded "email" = inr email
    /\ get decoded "username" = inr username
    /\ user = VObj [("id", id); ("email", email); ("username", username)]
    /\ toStr email = inr shown
    /\ w' = extend w [ELog Info [AStr ("Authenticated user: " ++ shown)]].
Proof.
  unfold authMiddleware. intros Hrun.
  destruct (header "authorization" (headers req)) as [authHeader|];
    [|discriminate Hrun].
  destruct (truthy (VStr authHeader)); [|discriminate Hrun].
  destruct (String.prefix "Bearer " authHeader) eqn:Hprefix; [|discriminate Hrun].
  cbn [negb orb] in Hrun.
  rewrite (bearer_token authHeader Hprefix).
  set (token := String.substring 7 (String.length authHeader - 7) authHeader) in *.
  destruct (truthy (VStr token)) eqn:Htoken; [|discriminate Hrun].
  cbn [negb] in Hrun.
  assert (token <> "") as Hne by (intros Heq; rewrite Heq in Htoken; discriminate).
  destruct (jwt_verify token) as [e|decoded] eqn:Hverify.
  { cbn in Hrun. repeat destruct (_ =? _)%string in Hrun; discriminate Hrun. }
  cbn [lift bind try_catch] in Hrun.
  destruct (get decoded "id") as [e|id] eqn:Hid.
  { cbn in Hrun. repeat destruct (_ =? _)%string in Hrun; discriminate Hrun. }
  destruct (get decoded "email") as [e|email] eqn:Hemail.
  { cbn in Hrun. repeat destruct (_ =? _)%string in Hrun; discriminate Hrun. }
  destruct (get decoded "username") as [e|username] eqn:Husername.
  { cbn in Hrun. repeat destruct (_ =? _)%string in Hrun; discriminate Hrun. }
  cbn [lift bind try_catch] in Hrun.
  destruct (toStr email) as [e|shown] eqn:Hshown.
  { cbn in Hrun. repeat destruct (_ =? _)%string in Hrun; discriminate Hrun. }
  cbn [lift bind try_catch log run] in Hrun.
  injection Hrun as <- <-.
  now exists token, decoded, id, email, username, shown.
Qed.

(** X13: a request without an [authorization] header, or with one that does
    not start with ['Bearer '] - another scheme, or the word in another
    case - is answered 401 'Bearer token is required'; nothing is logged and
    the request is not handed on. *)
Theorem X13_bearer_header_required (env : environment) (req : request) (w : world) :
  match header "authorization" (headers req) with
  | None => True
  | Some authHeader => String.prefix "Bearer " authHeader = false
  end ->
  run env (authMiddleware jwt_verify req) w
  = (inr (Sent (mkResponse 401
                  (VObj [("error", VStr "Authentication required");
                         ("message", VStr "Bearer token is required")]))),
     w).
Proof.
  unfold authMiddleware.
  destruct (header "authorization" (headers req)) as [authHeader|];
    [|reflexivity].
  intros ->. now rewrite orb_true_r.
Qed.

(** X14: the middleware never lets an exception out, and whenever it
    answers, the status is 401 or 500.  It answers 500 only when a token was
    presented and either [jwt.verify] threw something other than a
    [TokenExpiredError] or a [JsonWebTokenError], or it returned [undefined]
    or [null], or it returned a payload whose [email] cannot be rendered in
    the log line. *)
Theorem X14_rejections_are_401_or_500 (env : environment) (req : request)
    (w : world) :
  exists outcome,
    fst (run env (authMiddleware jwt_verify req) w) = inr outcome
    /\ match outcome with
       | Next _ => True
       | Sent r =>
           status r = 401
           \/ (status r = 500
               /\ exists token,
                    header "authorization" (headers req) = Some ("Bearer " ++ token)
                    /\ token <> ""
                    /\ match jwt_verify token with
                       | inl e => name e <> "TokenExpiredError"
                                  /\ name e <> "JsonWebTokenError"
                       | inr decoded =>
                           decoded = VUndefined
                           \/ decoded = VNull
                           \/ exists email,
                                get decoded "email" = inr email
                                /\ printable email = false
                       end)
       end.
Proof.
  unfold authMiddleware.
  destruct (header "authorization" (headers req)) as [authHeader|];
    [|eexists; split; [reflexivity|now left]].
  destruct (truthy (VStr authHeader));
    [|eexists; split; [reflexivity|now left]].
  destruct (String.prefix "Bearer " authHeader) eqn:Hprefix;
    [|eexists; split; [reflexivity|now left]].
  cbn [negb orb].
  pose proof (bearer_token authHeader Hprefix) as Hsplit.
  set (token := String.substring 7 (String.length authHeader - 7) authHeader) in *.
  destruct (truthy (VStr token)) eqn:Htoken;
    [|eexists; split; [reflexivity|now left]].
  cbn [negb].
  assert (token <> "") as Hne by (intros Heq; rewrite Heq in Htoken; discriminate).
  destruct (jwt_verify token) as [e|decoded] eqn:Hverify.
  { cbn [lift bind try_catch log run fst].
    destruct (String.eqb_spec (name e) "TokenExpiredError") as [|Hexp];
      [eexists; split; [reflexivity|now left]|].
    destruct (String.eqb_spec (name e) "JsonWebTokenError") as [|Hjwt];
      [eexists; split; [reflexivity|now left]|].
    eexists; split; [reflexivity|]. right. split; [reflexivity|].
    exists token. rewrite Hverify. split; [now f_equal | auto]. }
  cbn [lift bind try_catch].
  destruct (get decoded "id") as [e|id] eqn:Hid.
  { destruct decoded; try discriminate Hid; simpl in Hid; injection Hid as <-;
      (eexists; split; [reflexivity|];
       right; split; [reflexivity|]; exists token; rewrite Hverify;
       split; [now f_equal | auto]). }
  destruct (get_readable _ _ _ "email" Hid) as [email Hemail].
  destruct (get_readable _ _ _ "username" Hid) as [username Husername].
  cbn [lift bind try_catch]. rewrite Hemail. cbn [lift bind try_catch].
  rewrite Husername. cbn [lift bind try_catch].
  destruct (toStr email) as [e|shown] eqn:Hshown.
  - rewrite (toStr_throws email e Hshown).
    eexists; split; [reflexivity|]. right. split; [reflexivity|].
    exists token. rewrite Hverify. split; [now f_equal|].
    split; [exact Hne|]. right. right. exists email.
    split; [exact Hemail|]. unfold printable. now rewrite Hshown.
  - eexists; split; [reflexivity|exact I].
Qed.

End AuthProperties.

(** ** The error handler *)

Lemma optional_get_total (v : value) (k : string) :
  exists x, optional_get v k = inr x.
Proof. destruct v; simpl; eauto. Qed.

(** X15: the error's [name] is looked at first.  A [ValidationError], a
    [StripeError] or a [PayPalError] is answered 400 whatever [code] or
    [statusCode] it carries - a duplicate-entry code does not make it a 409,
    a [statusCode] is ignored - and its [message] is sent as it is, in
    production too. *)
Theorem X15_named_errors_are_400 (NODE_ENV err req_url req_method req_user : value)
    (env : environment) (w : world) (n : string) (message : value) :
  get err "name" = inr (VStr n) ->
  In n ["ValidationError"; "StripeError"; "PayPalError"] ->
  get err "message" = inr message ->
  exists r,
    fst (run env (errorHandler NODE_ENV err req_url req_method req_user) w) = inr r
    /\ code r = VNum "400"
    /\ get (content r) "message" = inr message.
Proof.
  intros Hname Hin Hmessage. unfold errorHandler.
  destruct (get_readable _ _ _ "stack" Hname) as [stack Hstack].
  destruct (get_readable _ _ _ "code" Hname) as [c Hcode].
  destruct (get_readable _ _ _ "details" Hname) as [details Hdetails].
  destruct (optional_get_total req_user "id") as [id Hid].
  rewrite Hmessage, Hstack, Hid, Hname, Hcode.
  cbn [lift bind log run].
  simpl in Hin. destruct Hin as [<-|[<-|[<-|[]]]]; cbn [is_string String.eqb Ascii.eqb Bool.eqb].
  - rewrite Hdetails. cbn. eauto.
  - cbn. eauto.
  - cbn. eauto.
Qed.

(** X16: in production an error that falls to the default branch is
    answered with the fixed message 'An unexpected error occurred.' and
    without a stack: neither the error's message nor its stack is sent.  The
    status is the error's [statusCode] when it has a truthy one, and 500
    otherwise. *)
Theorem X16_production_hides_unclassified_errors
    (err req_url req_method req_user : value) (env : environment) (w : world)
    (name code statusCode : value) :
  get err "name" = inr name ->
  get err "code" = inr code ->
  get err "statusCode" = inr statusCode ->
  (forall n, In n ["ValidationError"; "StripeError"; "PayPalError";
                   "JsonWebTokenError"; "TokenExpiredError"] ->
             name <> VStr n) ->
  (forall c, In c ["ER_DUP_ENTRY"; "ER_NO_REFERENCED_ROW_2"] -> code <> VStr c) ->
  fst (run env (errorHandler (VStr "production") err req_url req_method req_user) w)
  = inr (mkReply (if truthy statusCode then statusCode else VNum "500")
           (VObj [("error", VStr "Server Error");
                  ("message", VStr "An unexpected error occurred.")])).
Proof.
  intros Hname Hcode Hstatus Hnames Hcodes. unfold errorHandler.
  destruct (get_readable _ _ _ "message" Hname) as [message Hmessage].
  destruct (get_readable _ _ _ "stack" Hname) as [stack Hstack].
  destruct (optional_get_total req_user "id") as [id Hid].
  rewrite Hmessage, Hstack, Hid, Hname, Hcode.
  cbn [lift bind log run].
  assert (Hn : forall n, In n ["ValidationError"; "StripeError"; "PayPalError";
                               "JsonWebTokenError"; "TokenExpiredError"] ->
                         is_string name n = false).
  { intros n Hin. specialize (Hnames n Hin).
    destruct name; try reflexivity. simpl.
    destruct (String.eqb_spec s n); congruence. }
  assert (Hc : forall c, In c ["ER_DUP_ENTRY"; "ER_NO_REFERENCED_ROW_2"] ->
                         is_string code c = false).
  { intros c Hin. specialize (Hcodes c Hin).
    destruct code; try reflexivity. simpl.
    destruct (String.eqb_spec s c); congruence. }
  rewrite !Hn by (simpl; tauto). rewrite !Hc by (simpl; tauto).
  rewrite Hstatus. cbn [lift bind run fst].
  reflexivity.
Qed.

(** ** The properties at concrete inputs *)

Lemma X2_witness :
  fst (deliver (stripe_route auth_url) env_up sub_created w0) = inr received
  /\ status received = 200
  /\ exists signature ev,
       header "stripe-signature" (headers sub_created) = Some signature
       /\ signature <> ""
       /\ constructEvent env_up (trace w0) (body sub_created) signature = inr ev.
Proof.
  split; [reflexivity|]. split; [reflexivity|].
  apply (X2_no_acknowledgment_without_verification auth_url env_up sub_created w0
           received); reflexivity.
Defined.

Lemma X6_witness :
  plan_calls auth_url "customer.subscription.created" sub_1
  = [plan_update auth_url "u1" (VStr "pro")]
  /\ plan_calls auth_url "customer.subscription.updated" sub_2 = []
  /\ plan_calls auth_url "checkout.session.completed" cs_2 = []
  /\ dispatches
       (trace (snd (deliver (stripe_route auth_url) env_up
                      (signed (stripe_event "checkout.session.completed" cs_2)) w0)))
     = (dispatches (trace w0)
        ++ plan_calls auth_url "checkout.session.completed" cs_2)%list
  /\ dispatches (trace (snd (deliver (stripe_route auth_url) env_up sub_created w0)))
     = (dispatches (trace w0)
        ++ plan_calls auth_url "customer.subscription.created" sub_1)%list
  /\ dispatches (trace (snd (deliver (stripe_route auth_url) env_up sub_updated w0)))
     = (dispatches (trace w0)
        ++ plan_calls auth_url "customer.subscription.updated" sub_2)%list.
Proof.
  split; [reflexivity|]. split; [reflexivity|]. split; [reflexivity|].
  split; [|split].
  - apply (X6_propagating_event_calls auth_url env_up
             (signed (stripe_event "checkout.session.completed" cs_2)) w0
             "t=1,v1=good" "checkout.session.completed"
             (stripe_event "checkout.session.completed" cs_2) cs_2);
      try reflexivity; [discriminate | simpl; tauto].
  - apply (X6_propagating_event_calls auth_url env_up sub_created w0
             "t=1,v1=good" "customer.subscription.created" (body sub_created) sub_1);
      try reflexivity; [discriminate | simpl; tauto].
  - apply (X6_propagating_event_calls auth_url env_up sub_updated w0
             "t=1,v1=good" "customer.subscription.updated" (body sub_updated) sub_2);
      try reflexivity; [discriminate | simpl; tauto].
Defined.

Lemma X7_witness :
  dispatches (trace (snd (deliver (stripe_route auth_url) env_up sub_created w0)))
    <> dispatches (trace w0)
  /\ exists signature ev t,
       header "stripe-signature" (headers sub_created) = Some signature
       /\ constructEvent env_up (trace w0) (body sub_created) signature = inr ev
       /\ get ev "type" = inr (VStr t)
       /\ In t propagating.
Proof.
  assert (dispatches (trace (snd (deliver (stripe_route auth_url) env_up sub_created w0)))
          <> dispatches (trace w0)) as Hcalls by (vm_compute; discriminate).
  split; [exact Hcalls|].
  exact (X7_calls_only_for_propagating_events auth_url env_up sub_created w0 Hcalls).
Defined.

Lemma X8_witness :
  dispatches
    (trace (snd (deliver (stripe_route auth_url) env_down sub_created
                   (snd (deliver (stripe_route auth_url) env_up sub_created w0)))))
  = [plan_update auth_url "u1" (VStr "pro");
     plan_update auth_url "u1" (VStr "pro")].
Proof.
  apply (X8_redelivery_repeats_the_call auth_url env_up env_down sub_created w0
           "t=1,v1=good" "customer.subscription.created" (body sub_created) sub_1);
    try reflexivity; [discriminate | simpl; tauto].
Defined.

Lemma X9_witness :
  (forall history,
     constructEvent env_up history (body sub_created) "t=1,v1=good"
     = inr (body sub_created))
  /\ dispatches
       (trace (snd (interleave env_up (stripe_route auth_url sub_created)
                      (stripe_route auth_url sub_created)
                      [true; false; false; true; true; false] w0)))
     = [plan_update auth_url "u1" (VStr "pro");
        plan_update auth_url "u1" (VStr "pro")].
Proof.
  split; [reflexivity|].
  apply (X9_concurrent_deliveries_both_call auth_url env_up sub_created
           [true; false; false; true; true; false] w0
           "t=1,v1=good" "customer.subscription.created" (body sub_created) sub_1);
    try reflexivity; [discriminate | simpl; tauto].
Defined.

Lemma X10_witness :
  destructure (body test_request_without_plan) "planId" = inr VUndefined
  /\ deliver (test_route auth_url) env_up test_request_without_plan w0
     = (inr (mkResponse 400 (VObj [("error", VStr "userId and planId are required")])),
        w0).
Proof.
  split; [reflexivity|].
  apply (X10_test_route_requires_both auth_url env_up test_request_without_plan w0
           (VStr "u1") VUndefined); reflexivity.
Defined.

Lemma X11_witness :
  delivered (net env_down
               (trace w0 ++ [test_announcement "u1" "pro"])
               (plan_update auth_url "u1" (VStr "pro"))) = false
  /\ exists r,
       fst (deliver (test_route auth_url) env_down test_request w0) = inr r
       /\ status r
          = (if delivered (net env_down
                             (trace w0 ++ [test_announcement "u1" "pro"])
                             (plan_update auth_url "u1" (VStr "pro")))
             then 200 else 500)
       /\ dispatches (trace (snd (deliver (test_route auth_url) env_down test_request w0)))
          = (dispatches (trace w0) ++ [plan_update auth_url "u1" (VStr "pro")])%list.
Proof.
  split; [reflexivity|].
  apply (X11_test_route_reports_delivery auth_url env_down test_request w0
           (VStr "u1") (VStr "pro") "u1" "pro"); reflexivity.
Defined.

Lemma X12_witness :
  run env_up (authMiddleware jwt_sample (with_authorization "Bearer good.token")) w0
  = (inr (Next (VObj [("id", VStr "u1"); ("email", VStr "u1@example.org");
                      ("username", VStr "user one")])),
     extend w0 [ELog Info [AStr "Authenticated user: u1@example.org"]])
  /\ exists token decoded id email username shown,
       header "authorization" (headers (with_authorization "Bearer good.token"))
       = Some ("Bearer " ++ token)
       /\ token <> ""
       /\ jwt_sample token = inr decoded
       /\ get decoded "id" = inr id
       /\ get decoded "email" = inr email
       /\ get decoded "username" = inr username
       /\ VObj [("id", VStr "u1"); ("email", VStr "u1@example.org");
                ("username", VStr "user one")]
          = VObj [("id", id); ("email", email); ("username", username)]
       /\ toStr email = inr shown
       /\ extend w0 [ELog Info [AStr "Authenticated user: u1@example.org"]]
          = extend w0 [ELog Info [AStr ("Authenticated user: " ++ shown)]].
Proof.
  split; [reflexivity|].
  apply (X12_next_only_with_verified_token jwt_sample env_up
           (with_authorization "Bearer good.token") w0).
  reflexivity.
Defined.

Lemma X13_witness :
  String.prefix "Bearer " "bearer good.token" = false
  /\ run env_up (authMiddleware jwt_sample (with_authorization "bearer good.token")) w0
     = (inr (Sent (mkResponse 401
                     (VObj [("error", VStr "Authentication required");
                            ("message", VStr "Bearer token is required")]))),
        w0).
Proof.
  split; [reflexivity|].
  apply (X13_bearer_header_required jwt_sample env_up
           (with_authorization "bearer good.token") w0).
  reflexivity.
Defined.

Lemma X15_witness :
  get card_declined "code" = inr (VStr "ER_DUP_ENTRY")
  /\ exists r,
       fst (run env_up
              (errorHandler (VStr "production") card_declined (VStr "/api/payments/intent")
                 (VStr "POST") VUndefined) w0) = inr r
       /\ code r = VNum "400"
       /\ get (content r) "message" = inr (VStr "Your card was declined.").
Proof.
  split; [reflexivity|].
  apply (X15_named_errors_are_400 (VStr "production") card_declined
           (VStr "/api/payments/intent") (VStr "POST") VUndefined env_up w0
           "StripeError" (VStr "Your card was declined."));
    [reflexivity | simpl; tauto | reflexivity].
Defined.

Lemma X16_witness :
  fst (run env_up
         (errorHandler (VStr "production") not_found (VStr "/api/subscriptions/plans")
            (VStr "GET") VUndefined) w0)
  = inr (mkReply (VNum "404")
           (VObj [("error", VStr "Server Error");
                  ("message", VStr "An unexpected error occurred.")])).
Proof.
  apply (X16_production_hides_unclassified_errors not_found
           (VStr "/api/subscriptions/plans") (VStr "GET") VUndefined env_up w0
           (VStr "Error") VUndefined (VNum "404")); try reflexivity.
  - intros n Hin. simpl in Hin.
    destruct Hin as [<-|[<-|[<-|[<-|[<-|[]]]]]]; discriminate.
  - intros c _. discriminate.
Defined.

(** ** Values a template literal cannot render *)

(** A PayPal notification whose [event_type] is such an object is answered
    500 from the route's [catch]. *)
Example paypal_unrenderable_event_type :
  deliver paypal_route env_up (mkRequest [] (VObj [("event_type", unrenderable)])) w0
  = (inr processing_failed,
     extend w0 [ELog Err [AStr "Error processing PayPal webhook:"; AErr unprintable]]).
Proof. reflexivity. Qed.

(** The block that updates the plan sends nothing for such a [userId]. *)
Example patch_unrenderable_user :
  run env_up (patch_user_plan auth_url unrenderable (VStr "pro")) w0
  = (inr tt, extend w0 [ELog Err [AStr "PATCH request failed:"; AErr unprintable]]).
Proof. reflexivity. Qed.

(** The test webhook answers 500 for it, from its outer [catch], and calls
    nobody. *)
Example test_route_unrenderable_user :
  deliver (test_route auth_url) env_up
    (mkRequest [] (VObj [("userId", unrenderable); ("planId", VStr "pro")])) w0
  = (inr (mkResponse 500
            (VObj [("error", VStr "Test webhook failed");
                   ("details", VStr "Cannot convert object to primitive value")])),
     extend w0 [ELog Err [AStr "Error in test webhook:"; AErr unprintable]]).
Proof. reflexivity. Qed.

(** A number is rendered the way JavaScript prints it. *)
Example test_route_large_user :
  dispatches
    (trace (snd (deliver (test_route auth_url) env_up
                   (mkRequest [] (VObj [("userId", VNum "1e+21");
                                        ("planId", VStr "pro")])) w0)))
  = [mkHttp "PATCH" "http://localhost:5002/auth/users/1e+21/plan"
       "application/json" (VObj [("planId", VStr "pro")])].
Proof. reflexivity. Qed.

(** An array is joined with commas, [null] rendered as nothing; an object
    with a [valueOf] of its own is still ["[object Object]"]. *)
Example toStr_array :
  toStr (VArr [VNum "1"; VNull; VArr [VStr "a"; VStr "b"]; VObj [("valueOf", VNum "1")]])
  = inr "1,,a,b,[object Object]"
  /\ toStr (VArr [VNum "1"; unrenderable]) = inl unprintable.
Proof. split; reflexivity. Qed.
